(** * Score-P x86_adapt plugin: per-CPU recorder threads

    A shallow embedding of [include/x86_adapt_plugin.hpp]: the class
    [recorder_thread] (one background sampling thread per CPU) and the
    class [x86_adapt_plugin] (metric table, handle table, recorder map,
    timelines), followed by the properties of the natural-language
    specification that the code decides.

    Conventions.
    - A member function becomes a computation in the monad [M]: it takes
      the object state and ends in a value and a new state ([Ok]), in an
      exception that leaves a state behind ([Raise]), in [std::terminate]
      ([Terminate]) or in undefined behaviour ([Undefined]).
    - The control thread's calls and the iterations of the background
      loops are interleaved at the granularity of one call and one loop
      iteration: a [call] is either a member function called by the host
      or one step of the recorder thread of a CPU.
    - [int] and [size_type] conversions are written out on [Z].

    Limits of the model. A read of the device and the creation of a
    [std::thread] always succeed here; in the source either may throw.
    The loop of a recorder reads the metric table through a reference
    while [get_metric_properties] inserts into it without a lock: the
    steps of the model are atomic, so the theorem about the items that a
    loop reads is stated for runs without a declaration after the start. *)

From Stdlib Require Import ZArith Lia.
From stdpp Require Import base option list gmap strings sorting.

Local Open Scope Z_scope.

(** ** External types *)

(** [x86_adapt::configuration_item]: a knob of the device-access library.
    The plugin uses its name, its description, and its order as a map key. *)
Record configuration_item := {
  ci_id : Z;
  ci_name : string;
  ci_description : string }.

#[global] Instance configuration_item_eq_dec : EqDecision configuration_item.
Proof. solve_decision. Defined.

#[global] Instance configuration_item_countable : Countable configuration_item.
Proof.
  refine (inj_countable' (fun ci => (ci_id ci, ci_name ci, ci_description ci))
            (fun t => {| ci_id := t.1.1; ci_name := t.1.2; ci_description := t.2 |}) _).
  by intros [].
Defined.

(** [x86_adapt::device]: the device of one CPU. [dev_open] is the rank of
    the [x86_adapt_.cpu(cpu)] call that opened it. *)
Record device := { dev_id : Z; dev_open : nat }.

(** [scorep::plugin::metric_property] as built in [get_metric_properties]:
    name, description, unit, [absolute_point()], [value_uint()]. *)
Inductive metric_mode := absolute_point.
Inductive metric_value_type := value_uint.
Record metric_property := {
  mp_name : string;
  mp_description : string;
  mp_unit : string;
  mp_mode : metric_mode;
  mp_value_type : metric_value_type }.

(** [cpu_set_t] is the set of the CPUs of a mask; [CPU_COUNT] its size. *)
Abbreviation cpu_set_t := (gset nat).
Definition CPU_COUNT (cpumask : cpu_set_t) : Z := Z.of_nat (size cpumask).

(** What the operating system tells the calling thread: the mask
    [sched_getaffinity] fills in and the result of [sched_getcpu]. *)
Record os_thread := {
  affinity : cpu_set_t;
  sched_getcpu : Z }.

(** A sample is a [std::pair<scorep::chrono::ticks, std::uint64_t>], here a
    pair of integers; the timelines of one CPU map each item to its samples. *)
Abbreviation timeline_map := (gmap configuration_item (list (Z * Z))).

(** ** Integer conversions *)

(** [static_cast<int>] of a [size_type]: reduction modulo 2^32 into the
    range of a 32-bit [int]. *)
Definition static_cast_int (n : Z) : Z := (n + 2 ^ 31) mod 2 ^ 32 - 2 ^ 31.

(** Implicit conversion of an [int] to the 64-bit [size_type] of
    [std::vector::operator[]]. *)
Definition to_size_type (i : Z) : Z := i mod 2 ^ 64.

Definition int_range (i : Z) : Prop := - 2 ^ 31 <= i < 2 ^ 31.

(** ** class recorder_thread *)

(** The [std::thread] held in [thread_]. It was spawned on
    [recorder_thread::loop] with [std::ref(cis)] (always the plugin's
    [knobs_]), [std::ref(timelines)] (the entry of [values_] named by
    [th_timelines]) and a copy of [cpumask]. [th_pc] is where the thread
    stands. [th_affinity] is the affinity mask of the thread: a new thread
    has the mask of the thread that created it, and a successful
    [sched_setaffinity] replaces it. [th_bound] is the mask the thread has
    installed itself by a successful [sched_setaffinity], if any. *)
Inductive thread_pc :=
  | LoopEntry   (* spawned, [loop] not yet entered *)
  | LoopHead.   (* at [while (looping.load())] *)

Record thread := {
  th_timelines : Z;
  th_cpumask : cpu_set_t;
  th_pc : thread_pc;
  th_affinity : cpu_set_t;
  th_bound : option cpu_set_t }.

Record recorder_thread := {
  running_ : bool;
  device_ : device;
  thread_ : option thread;
  looping : bool;
  interval_ : Z }.

(** Constructor: [running_ = false], no thread. [looping] has no
    initialiser in the source; it is read only after [start] stored
    [true], and is taken as [false] here. *)
Definition new_recorder_thread (dev : device) (interval : Z) : recorder_thread :=
  {| running_ := false; device_ := dev; thread_ := None;
     looping := false; interval_ := interval |}.

Definition milliseconds (n : Z) : Z := n * 1000000.

(** ** class x86_adapt_plugin *)

Record oid := { item : configuration_item; cpu : Z }.

(** The members of the plugin, and two components of its environment:
    [devices_opened], the CPUs of the devices that [x86_adapt_] has opened
    so far, and [clock_reads], the number of calls to
    [measurement_clock::now()] so far. [knobs_] is a [std::map] that the
    loop iterates, so it is kept as the list of its entries in key order. *)
Record x86_adapt_plugin := {
  knobs_ : list (string * configuration_item);
  recorded_knobs_ : list oid;
  recorders_ : gmap Z recorder_thread;
  values_ : gmap Z timeline_map;
  devices_opened : list Z;
  clock_reads : nat }.

Definition plugin_init : x86_adapt_plugin :=
  {| knobs_ := []; recorded_knobs_ := []; recorders_ := ∅; values_ := ∅;
     devices_opened := []; clock_reads := 0%nat |}.

Definition set_knobs_ (f : list (string * configuration_item) -> list (string * configuration_item))
    (p : x86_adapt_plugin) : x86_adapt_plugin :=
  {| knobs_ := f (knobs_ p); recorded_knobs_ := recorded_knobs_ p;
     recorders_ := recorders_ p; values_ := values_ p;
     devices_opened := devices_opened p; clock_reads := clock_reads p |}.

Definition set_recorded_knobs_ (f : list oid -> list oid)
    (p : x86_adapt_plugin) : x86_adapt_plugin :=
  {| knobs_ := knobs_ p; recorded_knobs_ := f (recorded_knobs_ p);
     recorders_ := recorders_ p; values_ := values_ p;
     devices_opened := devices_opened p; clock_reads := clock_reads p |}.

Definition set_recorders_ (f : gmap Z recorder_thread -> gmap Z recorder_thread)
    (p : x86_adapt_plugin) : x86_adapt_plugin :=
  {| knobs_ := knobs_ p; recorded_knobs_ := recorded_knobs_ p;
     recorders_ := f (recorders_ p); values_ := values_ p;
     devices_opened := devices_opened p; clock_reads := clock_reads p |}.

Definition set_values_ (f : gmap Z timeline_map -> gmap Z timeline_map)
    (p : x86_adapt_plugin) : x86_adapt_plugin :=
  {| knobs_ := knobs_ p; recorded_knobs_ := recorded_knobs_ p;
     recorders_ := recorders_ p; values_ := f (values_ p);
     devices_opened := devices_opened p; clock_reads := clock_reads p |}.

Definition set_devices_opened (f : list Z -> list Z)
    (p : x86_adapt_plugin) : x86_adapt_plugin :=
  {| knobs_ := knobs_ p; recorded_knobs_ := recorded_knobs_ p;
     recorders_ := recorders_ p; values_ := values_ p;
     devices_opened := f (devices_opened p); clock_reads := clock_reads p |}.

Definition set_clock_reads (f : nat -> nat)
    (p : x86_adapt_plugin) : x86_adapt_plugin :=
  {| knobs_ := knobs_ p; recorded_knobs_ := recorded_knobs_ p;
     recorders_ := recorders_ p; values_ := values_ p;
     devices_opened := devices_opened p; clock_reads := f (clock_reads p) |}.

(** ** The monad of member functions *)

Inductive exn :=
  | NotPinned          (* Thread is not pinned to one specific CPU. *)
  | GetCpuFailed       (* Failed to get current cpu for current thread *)
  | UnknownMetric      (* thrown by [cpu_configuration_items().lookup] *)
  | DeviceOpenFailure  (* thrown by [x86_adapt_.cpu] *)
  | OutOfRange.        (* [std::out_of_range] of [knobs_.at] *)

Inductive result (A : Type) :=
  | Ok (a : A) (p : x86_adapt_plugin)
  | Raise (e : exn) (p : x86_adapt_plugin)
  | Terminate
  | Undefined.
Arguments Ok {A} a p.
Arguments Raise {A} e p.
Arguments Terminate {A}.
Arguments Undefined {A}.

Definition M (A : Type) : Type := x86_adapt_plugin -> result A.

Definition ret {A} (a : A) : M A := fun p => Ok a p.
Definition bind {A B} (m : M A) (k : A -> M B) : M B :=
  fun p => match m p with
           | Ok a p' => k a p'
           | Raise e p' => Raise e p'
           | Terminate => Terminate
           | Undefined => Undefined
           end.
Definition raise {A} (e : exn) : M A := fun p => Raise e p.
Definition gets {A} (f : x86_adapt_plugin -> A) : M A := fun p => Ok (f p) p.
Definition modify (f : x86_adapt_plugin -> x86_adapt_plugin) : M unit :=
  fun p => Ok tt (f p).

Notation "x <~ m ;; k" := (bind m (fun x => k))
  (at level 100, m at next level, right associativity).
Notation "m ;;; k" := (bind m (fun _ => k))
  (at level 100, right associativity).

(** ** Containers *)

(** [std::map<std::string, V>::at]: [None] stands for [std::out_of_range]. *)
Fixpoint at_ {V} (k : string) (m : list (string * V)) : option V :=
  match m with
  | [] => None
  | (k', v') :: m' => if String.eqb k k' then Some v' else at_ k m'
  end.

(** [std::map<std::string, V>::emplace]: leave the map alone when the key
    is there, and insert at the key's place in the order of the keys
    otherwise. *)
Fixpoint insert_in_order {V} (k : string) (v : V) (m : list (string * V)) : list (string * V) :=
  match m with
  | [] => [(k, v)]
  | (k', v') :: m' =>
      if String.ltb k k' then (k, v) :: m else (k', v') :: insert_in_order k v m'
  end.

Definition emplace {V} (k : string) (v : V) (m : list (string * V)) : list (string * V) :=
  match at_ k m with
  | Some _ => m
  | None => insert_in_order k v m
  end.

(** [std::map<K, V>::emplace] on a [gmap]. *)
Definition gmap_emplace `{Countable K} {V} (k : K) (v : V) (m : gmap K V) : gmap K V :=
  match m !! k with
  | Some _ => m
  | None => <[k := v]> m
  end.

(** [std::vector::operator[]] with an [int] index: no bounds check, so an
    index outside the vector is undefined behaviour ([None]). *)
Definition vector_index {A} (v : list A) (i : Z) : option A :=
  let n := to_size_type i in
  if n <? Z.of_nat (length v) then v !! Z.to_nat n else None.

(** The cursor of [get_all_values] is the sequence written so far;
    [c << entry] appends. *)
Definition cursor_write (c : list (Z * Z)) (entry : Z * Z) : list (Z * Z) := c ++ [entry].

Section Plugin.

(** ** The environment

    - [lookup]: [x86_adapt_.cpu_configuration_items().lookup], [None] when
      the library throws for an unknown knob;
    - [device_available]: whether [x86_adapt_.cpu(cpu)] can open the device;
    - [sched_setaffinity_ok]: whether the operating system accepts the mask
      ([sched_setaffinity] returns 0);
    - [measurement_clock_now n]: the result of the [n]-th call of
      [scorep::chrono::measurement_clock::now()];
    - [device_read dev ci n]: the value [dev(ci)] reads at the [n]-th sample. *)
Variable lookup : string -> option configuration_item.
Variable device_available : Z -> bool.
Variable sched_setaffinity_ok : cpu_set_t -> bool.
Variable measurement_clock_now : nat -> Z.
Variable device_read : device -> configuration_item -> nat -> Z.

(** *** recorder_thread::loop *)

(** First statement of [loop]: [sched_setaffinity(0, sizeof(cpu_set_t),
    &cpumask)]. Its result is not looked at. *)
Definition loop_entry (t : thread) : thread :=
  {| th_timelines := th_timelines t;
     th_cpumask := th_cpumask t;
     th_pc := LoopHead;
     th_affinity := if sched_setaffinity_ok (th_cpumask t)
                    then th_cpumask t else th_affinity t;
     th_bound := if sched_setaffinity_ok (th_cpumask t)
                 then Some (th_cpumask t) else th_bound t |}.

(** [timelines[ci].emplace_back(now(), device_(ci))]. *)
Definition record_sample (dev : device) (ci : configuration_item)
    (acc : timeline_map * nat) : timeline_map * nat :=
  let '(timelines, n) := acc in
  (<[ci := default [] (timelines !! ci) ++ [(measurement_clock_now n, device_read dev ci n)]]>
     timelines,
   S n).

(** [for (const auto& ci : cis) ...]: one pass over the map. *)
Definition loop_body (dev : device) (cis : list (string * configuration_item))
    (acc : timeline_map * nat) : timeline_map * nat :=
  foldl (fun acc ci => record_sample dev ci.2 acc) acc cis.

Definition set_thread_ (t : option thread) (r : recorder_thread) : recorder_thread :=
  {| running_ := running_ r; device_ := device_ r; thread_ := t;
     looping := looping r; interval_ := interval_ r |}.

(** One step of the recorder thread of [cpu]: the entry of [loop], or one
    iteration of the [while] loop over the plugin's [knobs_] (bound by
    reference) into the timelines the thread was given. Without a thread,
    or with [looping] false, nothing is written. *)
Definition thread_step (c : Z) (p : x86_adapt_plugin) : x86_adapt_plugin :=
  match recorders_ p !! c with
  | Some r =>
      match thread_ r with
      | Some t =>
          match th_pc t with
          | LoopEntry =>
              set_recorders_ (insert c (set_thread_ (Some (loop_entry t)) r)) p
          | LoopHead =>
              if looping r then
                let '(tl, n) :=
                  loop_body (device_ r) (knobs_ p)
                    (default ∅ (values_ p !! th_timelines t), clock_reads p) in
                set_clock_reads (fun _ => n)
                  (set_values_ (insert (th_timelines t) tl) p)
              else p
          end
      | None => p
      end
  | None => p
  end.

(** *** recorder_thread::start

    [looping.store(true)], [sched_getaffinity] into [cpumask], then the
    assignment to [thread_]. The new thread is created by the caller and
    has the caller's affinity mask. Assigning to a [std::unique_ptr] destroys
    the object it held, and destroying a [std::thread] that was not
    joined calls [std::terminate]. *)
Definition recorder_start (caller : os_thread) (timelines : Z)
    (r : recorder_thread) : option recorder_thread :=
  let cpumask := affinity caller in
  let t := {| th_timelines := timelines; th_cpumask := cpumask;
              th_pc := LoopEntry; th_affinity := affinity caller;
              th_bound := None |} in
  match thread_ r with
  | Some _ => None
  | None =>
      Some {| running_ := true; device_ := device_ r; thread_ := Some t;
              looping := true; interval_ := interval_ r |}
  end.

(** *** recorder_thread::stop

    Nothing when [running_] is false. Otherwise [looping.store(false)],
    [thread_->join()] (the thread leaves the loop at its next test of
    [looping] and writes no more), [thread_.reset(nullptr)]. *)
Definition recorder_stop (r : recorder_thread) : recorder_thread :=
  if negb (running_ r) then r
  else {| running_ := false; device_ := device_ r; thread_ := None;
          looping := false; interval_ := interval_ r |}.

(** *** x86_adapt_plugin *)

Definition is_pinned (caller : os_thread) : bool :=
  CPU_COUNT (affinity caller) =? 1.

Definition get_current_cpu (caller : os_thread) : M Z :=
  let res := sched_getcpu caller in
  if res <? 0 then raise GetCpuFailed else ret res.

(** [x86_adapt_.cpu_configuration_items().lookup(knob_name)] *)
Definition x86_adapt_lookup (knob_name : string) : M configuration_item :=
  match lookup knob_name with
  | Some ci => ret ci
  | None => raise UnknownMetric
  end.

(** [x86_adapt_.cpu(cpu)]: opens the device of the CPU. *)
Definition x86_adapt_cpu (c : Z) : M device :=
  if device_available c then
    n <~ gets (fun p => length (devices_opened p)) ;;
    modify (set_devices_opened (fun l => l ++ [c])) ;;;
    ret {| dev_id := c; dev_open := n |}
  else raise DeviceOpenFailure.

Definition get_metric_properties (knob_name : string) : M (list metric_property) :=
  configuration_item <~ x86_adapt_lookup knob_name ;;
  modify (set_knobs_ (emplace knob_name configuration_item)) ;;;
  ret [ {| mp_name := knob_name;
           mp_description := ci_description configuration_item;
           mp_unit := "#";
           mp_mode := absolute_point;
           mp_value_type := value_uint |} ].

(** [knobs_.at(knob_name)] *)
Definition knobs_at (knob_name : string) : M configuration_item :=
  fun p => match at_ knob_name (knobs_ p) with
           | Some ci => Ok ci p
           | None => Raise OutOfRange p
           end.

(** [recorders_[cpu]->start(knobs_, values_[cpu])]. A missing entry would
    be a null pointer. *)
Definition recorders_start (caller : os_thread) (c : Z) : M unit :=
  fun p => match recorders_ p !! c with
           | None => Undefined
           | Some r =>
               match recorder_start caller c r with
               | None => Terminate
               | Some r' => Ok tt (set_recorders_ (insert c r') p)
               end
           end.

Definition add_metric (caller : os_thread) (knob_name : string) : M Z :=
  if negb (is_pinned caller) then raise NotPinned else
  c <~ get_current_cpu caller ;;
  device <~ x86_adapt_cpu c ;;
  (* std::lock_guard<std::mutex> lock(init_mutex); *)
  id <~ gets (fun p => Z.of_nat (length (recorded_knobs_ p))) ;;
  ci <~ knobs_at knob_name ;;
  modify (set_recorded_knobs_ (fun v => v ++ [ {| item := ci; cpu := c |} ])) ;;;
  modify (set_recorders_
            (gmap_emplace c (new_recorder_thread device (milliseconds 50)))) ;;;
  modify (set_values_ (gmap_emplace c ∅)) ;;;
  recorders_start caller c ;;;
  ret (static_cast_int id).

(** [recorded_knobs_[id]] *)
Definition recorded_knobs_index (id : Z) : M oid :=
  fun p => match vector_index (recorded_knobs_ p) id with
           | Some o => Ok o p
           | None => Undefined
           end.

(** [recorders_[cpu]->stop()] *)
Definition recorders_stop (c : Z) : M unit :=
  fun p => match recorders_ p !! c with
           | None => Undefined
           | Some r => Ok tt (set_recorders_ (insert c (recorder_stop r)) p)
           end.

(** [values_[cpu][knob]]: both [operator[]] create a missing entry. *)
Definition values_index (c : Z) (knob : configuration_item) : M (list (Z * Z)) :=
  fun p =>
    let tls := default ∅ (values_ p !! c) in
    let timeline := default [] (tls !! knob) in
    Ok timeline (set_values_ (insert c (<[knob := timeline]> tls)) p).

Definition get_all_values (id : Z) (c : list (Z * Z)) : M (list (Z * Z)) :=
  o <~ recorded_knobs_index id ;;
  let c_cpu := cpu o in
  recorders_stop c_cpu ;;;
  let knob := item o in
  timeline <~ values_index c_cpu knob ;;
  ret (foldl cursor_write c timeline).

End Plugin.

(** [x86_adapt_plugin::start] and [x86_adapt_plugin::stop] have empty
    bodies: the recorder threads are started by [add_metric] and stopped
    by [get_all_values]. *)
Definition start : M unit := ret tt.
Definition stop : M unit := ret tt.

(** ** Runs

    What the host and the recorder threads do to one plugin object, in
    the order in which it happens. *)
Inductive call :=
  | GetMetricProperties (knob_name : string)
  | AddMetric (caller : os_thread) (knob_name : string)
  | GetAllValues (id : Z)
  | ThreadStep (c : Z).

Inductive reply :=
  | Properties (props : list metric_property)
  | Handle (id : Z)
  | Values (entries : list (Z * Z))
  | Stepped
  | Thrown (e : exn).

(** How a run ends: the process is alive with a plugin state, or it was
    ended by [std::terminate], or it ran into undefined behaviour. *)
Inductive fate :=
  | Alive (p : x86_adapt_plugin)
  | Terminated
  | Undefined_behaviour.

Section Runs.

Variable lookup : string -> option configuration_item.
Variable device_available : Z -> bool.
Variable sched_setaffinity_ok : cpu_set_t -> bool.
Variable measurement_clock_now : nat -> Z.
Variable device_read : device -> configuration_item -> nat -> Z.

Definition perform (c : call) : M reply :=
  match c with
  | GetMetricProperties knob_name =>
      props <~ get_metric_properties lookup knob_name ;; ret (Properties props)
  | AddMetric caller knob_name =>
      id <~ add_metric device_available caller knob_name ;; ret (Handle id)
  | GetAllValues id =>
      entries <~ get_all_values id [] ;; ret (Values entries)
  | ThreadStep c =>
      modify (thread_step sched_setaffinity_ok measurement_clock_now device_read c) ;;;
      ret Stepped
  end.

(** An exception goes back to the host, which carries on with the plugin
    as the throwing call left it. *)
Fixpoint run (cs : list call) (p : x86_adapt_plugin) : list reply * fate :=
  match cs with
  | [] => ([], Alive p)
  | c :: cs' =>
      match perform c p with
      | Ok r p' => let '(rs, f) := run cs' p' in (r :: rs, f)
      | Raise e p' => let '(rs, f) := run cs' p' in (Thrown e :: rs, f)
      | Terminate => ([], Terminated)
      | Undefined => ([], Undefined_behaviour)
      end
  end.

Inductive step (p p' : x86_adapt_plugin) : Prop :=
  | step_ok c r : perform c p = Ok r p' -> step p p'
  | step_raise c e : perform c p = Raise e p' -> step p p'.

Definition reachable (p : x86_adapt_plugin) : Prop := rtc step plugin_init p.

(** The handles that the successful activations of a run returned. *)
Definition handles (rs : list reply) : list Z :=
  omap (fun r => match r with Handle id => Some id | _ => None end) rs.

End Runs.

(** The timeline of an item on a CPU, empty when there is none. *)
Definition timeline_of (p : x86_adapt_plugin) (c : Z) (ci : configuration_item) : list (Z * Z) :=
  default [] (default ∅ (values_ p !! c) !! ci).

(** The number of entries of the metric table bound to an item. *)
Definition bindings_of (ci : configuration_item) (cis : list (string * configuration_item)) : nat :=
  length (filter (fun e => e.2 = ci) cis).

(** The handles of a CPU, and how often its device was opened. *)
Definition handles_on (c : Z) (p : x86_adapt_plugin) : nat :=
  length (filter (fun o => cpu o = c) (recorded_knobs_ p)).
Definition opens_of (c : Z) (p : x86_adapt_plugin) : nat :=
  length (filter (fun d => d = c) (devices_opened p)).

(** The recorder that [start] is called on: the one of the map, or the
    new one when the CPU had none. *)
Definition recorder_for (c : Z) (p : x86_adapt_plugin) : recorder_thread :=
  default (new_recorder_thread
             {| dev_id := c; dev_open := length (devices_opened p) |} (milliseconds 50))
          (recorders_ p !! c).

Definition started (caller : os_thread) (c : Z) (r : recorder_thread) : recorder_thread :=
  {| running_ := true; device_ := device_ r;
     thread_ := Some {| th_timelines := c; th_cpumask := affinity caller;
                        th_pc := LoopEntry; th_affinity := affinity caller;
                        th_bound := None |};
     looping := true; interval_ := interval_ r |}.

(** A recorder is Running when it holds a thread, Stopped otherwise. *)
Definition recorder_wf (c : Z) (r : recorder_thread) : Prop :=
  dev_id (device_ r) = c /\
  match thread_ r with
  | Some t => running_ r = true /\ looping r = true /\ th_timelines t = c
  | None => running_ r = false
  end.

Definition plugin_wf (p : x86_adapt_plugin) : Prop :=
  (forall o, o ∈ recorded_knobs_ p -> is_Some (recorders_ p !! cpu o)) /\
  (forall c r, recorders_ p !! c = Some r -> recorder_wf c r).

(** Every entry of the metric table is what the catalogue answers. *)
Definition knobs_consistent (lookup : string -> option configuration_item)
    (p : x86_adapt_plugin) : Prop :=
  forall k ci, at_ k (knobs_ p) = Some ci -> lookup k = Some ci.

(** The knob and the CPU of each successful activation of a run, from
    its calls and their replies. *)
Fixpoint activations (cs : list call) (rs : list reply) : list (string * Z) :=
  match cs, rs with
  | AddMetric caller knob_name :: cs', Handle _ :: rs' =>
      (knob_name, sched_getcpu caller) :: activations cs' rs'
  | _ :: cs', _ :: rs' => activations cs' rs'
  | _, _ => []
  end.

(** A recorder without a thread, or no recorder at all. *)
Definition stopped_at (c : Z) (p : x86_adapt_plugin) : Prop :=
  forall r, recorders_ p !! c = Some r -> thread_ r = None.

(** No call of the list declares a metric. *)
Definition no_declaration (cs : list call) : Prop :=
  forall knob_name, GetMetricProperties knob_name ∉ cs.

(** No call of the list activates a metric from the CPU. *)
Definition no_activation_on (c : Z) (cs : list call) : Prop :=
  forall caller knob_name, AddMetric caller knob_name ∈ cs -> sched_getcpu caller ≠ c.

(** A clock that never goes back. *)
Definition clock_monotone (now : nat -> Z) : Prop :=
  forall m n, (m <= n)%nat -> now m <= now n.

(** The time stamps of a timeline are those of the clock reads [ks], which
    were taken in that order and before the [bound]-th read. *)
Definition stamped (now : nat -> Z) (bound : nat) (tl : list (Z * Z)) : Prop :=
  exists ks, tl.*1 = now <$> ks /\ StronglySorted Nat.lt ks /\
             Forall (fun k => (k < bound)%nat) ks.

(** The order of the entries of the metric table: the order of their keys. *)
Definition knob_lt (a b : string * configuration_item) : Prop :=
  String.ltb a.1 b.1 = true.

(** ** A test bench: a catalogue that knows every non-empty name, devices
    that always open, a clock that counts 0, 1, 2, ... and a device that
    reads 100, 101, 102, ... *)
Definition bench_lookup (knob_name : string) : option configuration_item :=
  if String.eqb knob_name "" then None
  else Some {| ci_id := Z.of_nat (String.length knob_name);
               ci_name := knob_name; ci_description := "knob" |}.
Definition bench_device_available (c : Z) : bool := true.
Definition bench_clock (n : nat) : Z := Z.of_nat n.
Definition bench_read (dev : device) (ci : configuration_item) (n : nat) : Z :=
  100 + Z.of_nat n.
Definition always (b : bool) (cpumask : cpu_set_t) : bool := b.

Definition bench_run (affinity_ok : bool) (cs : list call) : list reply * fate :=
  run bench_lookup bench_device_available (always affinity_ok) bench_clock bench_read
    cs plugin_init.

(** The plugin at the end of a run of the bench, and after a call. *)
Definition bench_state (affinity_ok : bool) (cs : list call) : x86_adapt_plugin :=
  match (bench_run affinity_ok cs).2 with
  | Alive p => p
  | _ => plugin_init
  end.

Definition after {A} (res : result A) : x86_adapt_plugin :=
  match res with
  | Ok _ p | Raise _ p => p
  | _ => plugin_init
  end.

(** What the harvests of a run delivered. *)
Definition harvested (rs : list reply) : list (list (Z * Z)) :=
  omap (fun r => match r with Values entries => Some entries | _ => None end) rs.

(** A thread of the host pinned to one CPU, and one allowed on two. *)
Definition pinned_to (c : nat) : os_thread :=
  {| affinity := {[ c ]}; sched_getcpu := Z.of_nat c |}.
Definition unpinned : os_thread :=
  {| affinity := {[ 0%nat; 1%nat ]}; sched_getcpu := 0 |}.

Definition freq : configuration_item :=
  {| ci_id := 4; ci_name := "freq"; ci_description := "knob" |}.
Definition volt : configuration_item :=
  {| ci_id := 4; ci_name := "volt"; ci_description := "knob" |}.

(** Activate the knob on CPU 3, then harvest handle 0. *)
Definition activate_and_harvest : list call :=
  [AddMetric (pinned_to 3) "freq"; GetAllValues 0].

(** Declare the knob, go [n] times through [activate_and_harvest], and
    activate once more. *)
Definition many_activations (n : nat) : list call :=
  GetMetricProperties "freq"
    :: concat (replicate n activate_and_harvest) ++ [AddMetric (pinned_to 3) "freq"].

(** The states between two rounds of [activate_and_harvest]: "freq" is
    declared, the recorder of CPU 3 is stopped, and handle 0, if there is
    one, is a handle of CPU 3. *)
Definition between_rounds (p : x86_adapt_plugin) : Prop :=
  plugin_wf p /\
  is_Some (at_ "freq" (knobs_ p)) /\
  stopped_at 3 p /\
  (forall o, recorded_knobs_ p !! 0%nat = Some o -> cpu o = 3).

(** * Properties *)

(** ** Containers and conversions *)

Lemma at_insert_in_order {V} (k : string) (v : V) (m : list (string * V)) :
  at_ k m = None -> at_ k (insert_in_order k v m) = Some v.
Proof.
  induction m as [|[k' v'] m IH]; simpl.
  - by rewrite String.eqb_refl.
  - destruct (String.eqb k k') eqn:E; [done|]. intros Hm.
    destruct (String.ltb k k'); simpl.
    + by rewrite String.eqb_refl.
    + rewrite E. auto.
Qed.

Lemma at_emplace {V} (k : string) (v : V) (m : list (string * V)) :
  at_ k (emplace k v m) = Some (default v (at_ k m)).
Proof.
  unfold emplace. destruct (at_ k m) eqn:E; simpl; [done|].
  by apply at_insert_in_order.
Qed.

Lemma emplace_idem {V} (k : string) (v w : V) (m : list (string * V)) :
  emplace k w (emplace k v m) = emplace k v m.
Proof.
  unfold emplace at 1. by rewrite at_emplace.
Qed.

Lemma foldl_cursor_write (c timeline : list (Z * Z)) :
  foldl cursor_write c timeline = c ++ timeline.
Proof.
  revert c. induction timeline as [|e tl IH]; intros c; simpl.
  - by rewrite app_nil_r.
  - rewrite IH. unfold cursor_write. by rewrite <- app_assoc.
Qed.

Lemma static_cast_int_small (n : Z) : 0 <= n < 2 ^ 31 -> static_cast_int n = n.
Proof.
  intros H. unfold static_cast_int.
  rewrite Z.mod_small by lia. lia.
Qed.

Lemma vector_index_nonneg {A} (v : list A) (i : Z) :
  0 <= i < 2 ^ 64 -> vector_index v i = v !! Z.to_nat i.
Proof.
  unfold vector_index, to_size_type. intros Hi.
  rewrite Z.mod_small by lia.
  destruct (Z.ltb_spec i (Z.of_nat (length v))) as [Hlt|Hge]; [done|].
  symmetry. apply lookup_ge_None. lia.
Qed.

Lemma vector_index_None {A} (v : list A) (i : Z) :
  int_range i -> Z.of_nat (length v) <= 2 ^ 63 ->
  vector_index v i = None <-> i < 0 \/ Z.of_nat (length v) <= i.
Proof.
  unfold int_range, vector_index, to_size_type. intros Hi Hmax.
  destruct (Z.lt_ge_cases i 0) as [Hneg|Hpos].
  - assert (i mod 2 ^ 64 = i + 2 ^ 64) as ->.
    { symmetry. apply (Z.mod_unique_pos _ _ (-1)); lia. }
    destruct (Z.ltb_spec (i + 2 ^ 64) (Z.of_nat (length v))); [lia|].
    split; auto.
  - rewrite Z.mod_small by lia.
    destruct (Z.ltb_spec i (Z.of_nat (length v))) as [Hlt|Hge].
    + split; [|lia]. intros Hn. apply lookup_ge_None in Hn. lia.
    + split; auto.
Qed.

(** ** What each member function does *)

Ltac unfold_M :=
  unfold add_metric, get_all_values, get_metric_properties, get_current_cpu,
    x86_adapt_cpu, x86_adapt_lookup, knobs_at, recorders_start, recorders_stop,
    recorded_knobs_index, values_index, is_pinned,
    bind, ret, raise, gets, modify in *.

Section Operations.

Variable lookup : string -> option configuration_item.
Variable device_available : Z -> bool.

Lemma gmap_emplace_lookup `{Countable K} {V} (k : K) (v : V) (m : gmap K V) :
  gmap_emplace k v m !! k = Some (default v (m !! k)).
Proof.
  unfold gmap_emplace. destruct (m !! k) eqn:E; simpl; [done|].
  by rewrite lookup_insert_eq.
Qed.

Lemma gmap_emplace_lookup_ne `{Countable K} {V} (k k' : K) (v : V) (m : gmap K V) :
  k ≠ k' -> gmap_emplace k v m !! k' = m !! k'.
Proof.
  intros Hne. unfold gmap_emplace. destruct (m !! k); [done|].
  by rewrite lookup_insert_ne.
Qed.

Lemma get_metric_properties_Ok (knob_name : string) (p : x86_adapt_plugin)
    (props : list metric_property) (p' : x86_adapt_plugin) :
  get_metric_properties lookup knob_name p = Ok props p' ->
  exists ci, lookup knob_name = Some ci /\
    p' = set_knobs_ (emplace knob_name ci) p.
Proof.
  unfold_M. destruct (lookup knob_name) as [ci|]; [|done].
  intros [= _ <-]. eauto.
Qed.

Lemma get_metric_properties_Raise (knob_name : string) (p : x86_adapt_plugin)
    (e : exn) (p' : x86_adapt_plugin) :
  get_metric_properties lookup knob_name p = Raise e p' -> p' = p.
Proof.
  unfold_M. destruct (lookup knob_name) as [ci|]; [done|]. by intros [= _ <-].
Qed.

Lemma add_metric_Ok (caller : os_thread) (knob_name : string)
    (p : x86_adapt_plugin) (h : Z) (p' : x86_adapt_plugin) :
  add_metric device_available caller knob_name p = Ok h p' ->
  let c := sched_getcpu caller in
  exists ci,
    CPU_COUNT (affinity caller) = 1 /\ 0 <= c /\ device_available c = true /\
    at_ knob_name (knobs_ p) = Some ci /\
    thread_ (recorder_for c p) = None /\
    h = static_cast_int (Z.of_nat (length (recorded_knobs_ p))) /\
    p' = {| knobs_ := knobs_ p;
            recorded_knobs_ := recorded_knobs_ p ++ [ {| item := ci; cpu := c |} ];
            recorders_ := <[c := started caller c (recorder_for c p)]> (recorders_ p);
            values_ := gmap_emplace c ∅ (values_ p);
            devices_opened := devices_opened p ++ [c];
            clock_reads := clock_reads p |}.
Proof.
  unfold_M. simpl.
  destruct (Z.eqb_spec (CPU_COUNT (affinity caller)) 1) as [Hpin|]; [simpl|done].
  destruct (Z.ltb_spec (sched_getcpu caller) 0) as [|Hcpu]; [done|].
  destruct (device_available (sched_getcpu caller)) eqn:Hdev; [simpl|done].
  destruct (at_ knob_name (knobs_ p)) as [ci|] eqn:Hat; [simpl|done].
  rewrite gmap_emplace_lookup. fold (recorder_for (sched_getcpu caller) p).
  unfold recorder_start.
  destruct (thread_ (recorder_for (sched_getcpu caller) p)) eqn:Hth; [done|].
  intros [= <- <-]. exists ci. repeat split; try done.
  unfold set_recorders_; simpl. f_equal.
  unfold gmap_emplace, recorder_for, started.
  destruct (recorders_ p !! sched_getcpu caller) eqn:E; simpl; [done|].
  by rewrite insert_insert_eq.
Qed.

Lemma add_metric_Raise (caller : os_thread) (knob_name : string)
    (p : x86_adapt_plugin) (e : exn) (p' : x86_adapt_plugin) :
  add_metric device_available caller knob_name p = Raise e p' ->
  p' = p \/
  (e = OutOfRange /\ at_ knob_name (knobs_ p) = None /\
   p' = set_devices_opened (fun l => l ++ [sched_getcpu caller]) p).
Proof.
  unfold_M. simpl.
  destruct (CPU_COUNT (affinity caller) =? 1); simpl; [|intros [= _ <-]; by left].
  destruct (sched_getcpu caller <? 0); [intros [= _ <-]; by left|].
  destruct (device_available (sched_getcpu caller)); simpl; [|intros [= _ <-]; by left].
  destruct (at_ knob_name (knobs_ p)) as [ci|] eqn:Hat; simpl.
  - rewrite gmap_emplace_lookup. unfold recorder_start.
    by destruct (thread_ _).
  - intros [= <- <-]. by right.
Qed.

Lemma add_metric_stopped (caller : os_thread) (knob_name : string)
    (p : x86_adapt_plugin) (ci : configuration_item) :
  let c := sched_getcpu caller in
  CPU_COUNT (affinity caller) = 1 -> 0 <= c -> device_available c = true ->
  at_ knob_name (knobs_ p) = Some ci ->
  thread_ (recorder_for c p) = None ->
  add_metric device_available caller knob_name p =
    Ok (static_cast_int (Z.of_nat (length (recorded_knobs_ p))))
       {| knobs_ := knobs_ p;
          recorded_knobs_ := recorded_knobs_ p ++ [ {| item := ci; cpu := c |} ];
          recorders_ := <[c := started caller c (recorder_for c p)]> (recorders_ p);
          values_ := gmap_emplace c ∅ (values_ p);
          devices_opened := devices_opened p ++ [c];
          clock_reads := clock_reads p |}.
Proof.
  intros c Hpin Hcpu Hdev Hat Hth. subst c. unfold_M. simpl.
  rewrite Hpin. simpl.
  destruct (Z.ltb_spec (sched_getcpu caller) 0); [lia|].
  rewrite Hdev. simpl. rewrite Hat. simpl.
  rewrite gmap_emplace_lookup. fold (recorder_for (sched_getcpu caller) p).
  unfold recorder_start. rewrite Hth. f_equal.
  unfold set_recorders_; simpl. f_equal.
  unfold gmap_emplace, recorder_for, started.
  destruct (recorders_ p !! sched_getcpu caller) eqn:E; simpl; [done|].
  by rewrite insert_insert_eq.
Qed.

Lemma add_metric_running (caller : os_thread) (knob_name : string)
    (p : x86_adapt_plugin) (ci : configuration_item) (r : recorder_thread) :
  let c := sched_getcpu caller in
  CPU_COUNT (affinity caller) = 1 -> 0 <= c -> device_available c = true ->
  at_ knob_name (knobs_ p) = Some ci ->
  recorders_ p !! c = Some r -> is_Some (thread_ r) ->
  add_metric device_available caller knob_name p = Terminate.
Proof.
  intros c Hpin Hcpu Hdev Hat Hr [t Hth]. subst c. unfold_M. simpl.
  rewrite Hpin. simpl.
  destruct (Z.ltb_spec (sched_getcpu caller) 0); [lia|].
  rewrite Hdev. simpl. rewrite Hat. simpl.
  rewrite gmap_emplace_lookup, Hr. simpl.
  unfold recorder_start. by rewrite Hth.
Qed.

Lemma get_all_values_Ok_inv (id : Z) (sink : list (Z * Z)) (p : x86_adapt_plugin)
    (entries : list (Z * Z)) (p' : x86_adapt_plugin) :
  get_all_values id sink p = Ok entries p' ->
  exists o r,
    vector_index (recorded_knobs_ p) id = Some o /\
    recorders_ p !! cpu o = Some r /\
    entries = sink ++ timeline_of p (cpu o) (item o) /\
    p' = set_values_
           (insert (cpu o)
              (<[item o := timeline_of p (cpu o) (item o)]>
                 (default ∅ (values_ p !! cpu o))))
           (set_recorders_ (insert (cpu o) (recorder_stop r)) p).
Proof.
  unfold_M.
  destruct (vector_index (recorded_knobs_ p) id) as [o|] eqn:Ho; [|done].
  destruct (recorders_ p !! cpu o) as [r|] eqn:Hr; [|done]. simpl.
  rewrite foldl_cursor_write. intros [= <- <-]. exists o, r. done.
Qed.

Lemma get_all_values_valid (id : Z) (sink : list (Z * Z)) (p : x86_adapt_plugin)
    (o : oid) (r : recorder_thread) :
  vector_index (recorded_knobs_ p) id = Some o ->
  recorders_ p !! cpu o = Some r ->
  get_all_values id sink p =
    Ok (sink ++ timeline_of p (cpu o) (item o))
       (set_values_
          (insert (cpu o)
             (<[item o := timeline_of p (cpu o) (item o)]>
                (default ∅ (values_ p !! cpu o))))
          (set_recorders_ (insert (cpu o) (recorder_stop r)) p)).
Proof.
  intros Ho Hr. unfold_M. rewrite Ho, Hr. simpl.
  by rewrite foldl_cursor_write.
Qed.

Lemma get_all_values_never_raises (id : Z) (sink : list (Z * Z))
    (p : x86_adapt_plugin) (e : exn) (p' : x86_adapt_plugin) :
  get_all_values id sink p ≠ Raise e p'.
Proof.
  unfold_M.
  destruct (vector_index (recorded_knobs_ p) id) as [o|]; [|done].
  by destruct (recorders_ p !! cpu o).
Qed.

Lemma get_all_values_never_terminates (id : Z) (sink : list (Z * Z))
    (p : x86_adapt_plugin) :
  get_all_values id sink p ≠ Terminate.
Proof.
  unfold_M.
  destruct (vector_index (recorded_knobs_ p) id) as [o|]; [|done].
  by destruct (recorders_ p !! cpu o).
Qed.

End Operations.

(** ** The recorder thread *)

Section Steps.

Variable lookup : string -> option configuration_item.
Variable device_available : Z -> bool.
Variable sched_setaffinity_ok : cpu_set_t -> bool.
Variable measurement_clock_now : nat -> Z.
Variable device_read : device -> configuration_item -> nat -> Z.

Local Abbreviation loop_body' := (loop_body measurement_clock_now device_read).
Local Abbreviation thread_step' :=
  (thread_step sched_setaffinity_ok measurement_clock_now device_read).
Local Abbreviation perform' :=
  (perform lookup device_available sched_setaffinity_ok measurement_clock_now device_read).
Local Abbreviation step' :=
  (step lookup device_available sched_setaffinity_ok measurement_clock_now device_read).
Local Abbreviation run' :=
  (run lookup device_available sched_setaffinity_ok measurement_clock_now device_read).
Local Abbreviation reachable' :=
  (reachable lookup device_available sched_setaffinity_ok measurement_clock_now device_read).

Lemma bindings_of_cons (ci : configuration_item) (e : string * configuration_item)
    (cis : list (string * configuration_item)) :
  bindings_of ci (e :: cis) =
    ((if decide (e.2 = ci) then 1 else 0) + bindings_of ci cis)%nat.
Proof.
  unfold bindings_of. rewrite filter_cons. by destruct (decide (e.2 = ci)).
Qed.

(** One pass of the loop appends to the timeline of each item one sample
    per entry of the map that is bound to it. *)
Lemma loop_body_timeline (dev : device) (cis : list (string * configuration_item))
    (tl : timeline_map) (n : nat) (ci : configuration_item) :
  exists extra,
    default [] ((loop_body' dev cis (tl, n)).1 !! ci) = default [] (tl !! ci) ++ extra /\
    length extra = bindings_of ci cis.
Proof.
  revert tl n. induction cis as [|e cis IH]; intros tl n.
  - exists []. by rewrite app_nil_r.
  - unfold loop_body. simpl.
    destruct (IH (<[e.2 := default [] (tl !! e.2)
                       ++ [(measurement_clock_now n, device_read dev e.2 n)]]> tl) (S n))
      as (extra & Hx & Hlen).
    unfold loop_body in Hx. rewrite Hx. rewrite bindings_of_cons.
    destruct (decide (e.2 = ci)) as [->|Hne].
    + rewrite lookup_insert_eq. simpl. rewrite <- app_assoc.
      eexists. split; [done|]. simpl. by rewrite Hlen.
    + rewrite lookup_insert_ne by done. eauto.
Qed.

Lemma loop_body_clock (dev : device) (cis : list (string * configuration_item))
    (tl : timeline_map) (n : nat) :
  (loop_body' dev cis (tl, n)).2 = (n + length cis)%nat.
Proof.
  revert tl n. induction cis as [|e cis IH]; intros tl n; simpl.
  - lia.
  - unfold loop_body in *. simpl. rewrite IH. lia.
Qed.

Lemma thread_step_cases (c : Z) (p : x86_adapt_plugin) :
  thread_step' c p = p \/
  (exists r t, recorders_ p !! c = Some r /\ thread_ r = Some t /\ th_pc t = LoopEntry /\
     thread_step' c p =
       set_recorders_
         (insert c (set_thread_ (Some (loop_entry sched_setaffinity_ok t)) r)) p) \/
  (exists r t, recorders_ p !! c = Some r /\ thread_ r = Some t /\ th_pc t = LoopHead /\
     looping r = true /\
     thread_step' c p =
       set_clock_reads (fun _ => (clock_reads p + length (knobs_ p))%nat)
         (set_values_
            (insert (th_timelines t)
               (loop_body' (device_ r) (knobs_ p)
                  (default ∅ (values_ p !! th_timelines t), clock_reads p)).1) p)).
Proof.
  unfold thread_step.
  destruct (recorders_ p !! c) as [r|] eqn:Hr; [|by left].
  destruct (thread_ r) as [t|] eqn:Ht; [|by left].
  destruct (th_pc t) eqn:Hpc.
  - right; left. exists r, t. done.
  - destruct (looping r) eqn:Hl; [|by left].
    right; right. exists r, t.
    pose proof (loop_body_clock (device_ r) (knobs_ p)
                  (default ∅ (values_ p !! th_timelines t)) (clock_reads p)) as Hc.
    destruct (loop_body' _ _ _) as [tl n]. simpl in *. subst n. done.
Qed.

(** What a call that returns or throws makes of the plugin. *)
Lemma perform_alive (c : call) (p p' : x86_adapt_plugin) :
  (exists r, perform' c p = Ok r p') \/ (exists e, perform' c p = Raise e p') ->
  match c with
  | GetMetricProperties knob_name =>
      p' = p \/ exists ci, lookup knob_name = Some ci /\
                           p' = set_knobs_ (emplace knob_name ci) p
  | AddMetric caller knob_name =>
      p' = p \/
      p' = set_devices_opened (fun l => l ++ [sched_getcpu caller]) p \/
      exists h, add_metric device_available caller knob_name p = Ok h p'
  | GetAllValues id => exists entries, get_all_values id [] p = Ok entries p'
  | ThreadStep c => p' = thread_step' c p
  end.
Proof.
  intros [[r H]|[e H]]; destruct c as [knob_name|caller knob_name|id|c];
    unfold perform, bind, ret in H.
  - destruct (get_metric_properties _ _ _) as [props p1| | |] eqn:E; try done.
    injection H as _ <-. apply get_metric_properties_Ok in E as (ci & Hci & ->).
    right. eauto.
  - destruct (add_metric _ _ _ _) as [h p1| | |] eqn:E; try done.
    injection H as _ <-. eauto.
  - destruct (get_all_values _ _ _) as [h p1| | |] eqn:E; try done.
    injection H as _ <-. eauto.
  - unfold modify in H. by injection H as _ <-.
  - destruct (get_metric_properties _ _ _) as [props p1|e1 p1| |] eqn:E; try done.
    injection H as _ <-. apply get_metric_properties_Raise in E as ->. auto.
  - destruct (add_metric _ _ _ _) as [h p1|e1 p1| |] eqn:E; try done.
    injection H as _ <-. apply add_metric_Raise in E as [->|(_ & _ & ->)]; eauto.
  - destruct (get_all_values _ _ _) as [h p1|e1 p1| |] eqn:E; try done.
    by apply get_all_values_never_raises in E.
  - unfold modify in H. done.
Qed.

(** The shapes of a step of a run. *)
Lemma step_cases (p p' : x86_adapt_plugin) :
  step' p p' ->
  (exists knob_name ci, lookup knob_name = Some ci /\
      p' = set_knobs_ (emplace knob_name ci) p) \/
  p' = p \/
  (exists c, p' = set_devices_opened (fun l => l ++ [c]) p) \/
  (exists caller knob_name h, add_metric device_available caller knob_name p = Ok h p') \/
  (exists id entries, get_all_values id [] p = Ok entries p') \/
  (exists c, p' = thread_step' c p).
Proof.
  intros Hstep.
  assert (exists c, (exists r, perform' c p = Ok r p') \/
                    (exists e, perform' c p = Raise e p')) as [c Hc].
  { destruct Hstep as [c r H|c e H]; exists c; eauto. }
  apply perform_alive in Hc. destruct c as [k|caller k|id|c].
  - destruct Hc as [->|(ci & Hci & ->)]; eauto 6.
  - destruct Hc as [->|[->|[h H]]]; eauto 10.
  - destruct Hc as [entries H]. eauto 10.
  - eauto 10.
Qed.

Lemma run_cons_alive (c : call) (cs : list call) (p : x86_adapt_plugin)
    (rs : list reply) (p' : x86_adapt_plugin) :
  run' (c :: cs) p = (rs, Alive p') ->
  exists p1 r rs',
    (perform' c p = Ok r p1 \/ exists e, perform' c p = Raise e p1 /\ r = Thrown e) /\
    rs = r :: rs' /\ run' cs p1 = (rs', Alive p').
Proof.
  simpl. destruct (perform' c p) as [r p1|e p1| |] eqn:E; try done;
    destruct (run' cs p1) as [rs1 f1] eqn:E1; intros [= <- ->];
    exists p1; eauto 10.
Qed.

(** ** Invariants of the reachable states *)

Lemma recorder_stop_wf (c : Z) (r : recorder_thread) :
  recorder_wf c r -> recorder_wf c (recorder_stop r).
Proof.
  unfold recorder_stop. destruct (running_ r) eqn:E; simpl; [|done].
  intros [Hd _]. by split.
Qed.

Lemma recorder_stop_stopped (c : Z) (r : recorder_thread) :
  recorder_wf c r ->
  running_ (recorder_stop r) = false /\ thread_ (recorder_stop r) = None.
Proof.
  unfold recorder_stop. intros [_ Hw].
  destruct (running_ r) eqn:E; simpl; [done|].
  rewrite E. split; [done|]. destruct (thread_ r); [|done].
  destruct Hw as [Hw _]. congruence.
Qed.

Lemma plugin_wf_init : plugin_wf plugin_init.
Proof.
  split; simpl.
  - intros o Ho. by apply elem_of_nil in Ho.
  - intros c r Hr. by rewrite lookup_empty in Hr.
Qed.

Lemma recorder_for_wf (c : Z) (p : x86_adapt_plugin) :
  plugin_wf p -> dev_id (device_ (recorder_for c p)) = c.
Proof.
  intros [_ Hw]. unfold recorder_for.
  destruct (recorders_ p !! c) as [r|] eqn:E; simpl; [|done].
  by destruct (Hw c r E).
Qed.

Lemma step_wf (p p' : x86_adapt_plugin) :
  step' p p' -> plugin_wf p -> plugin_wf p'.
Proof.
  intros Hstep Hwf. pose proof Hwf as [Hrec Hw].
  apply step_cases in Hstep
    as [(k & ci & _ & ->)|[->|[(c & ->)|[(caller & k & h & H)|[(id & es & H)|(c & ->)]]]]];
    try done.
  - apply add_metric_Ok in H as (ci & _ & _ & _ & _ & Hth & _ & ->).
    split; simpl.
    + intros o [Ho|Ho]%elem_of_app.
      * destruct (decide (sched_getcpu caller = cpu o)) as [->|Hne].
        -- rewrite lookup_insert_eq. eauto.
        -- rewrite lookup_insert_ne by done. auto.
      * apply list_elem_of_singleton in Ho as ->. simpl.
        rewrite lookup_insert_eq. eauto.
    + intros c r. destruct (decide (sched_getcpu caller = c)) as [<-|Hne].
      * rewrite lookup_insert_eq. intros [= <-]. split; simpl; [|done].
        by apply recorder_for_wf.
      * rewrite lookup_insert_ne by done. auto.
  - apply get_all_values_Ok_inv in H as (o & r & _ & Hr & _ & ->).
    split; simpl.
    + intros o' Ho'. destruct (decide (cpu o = cpu o')) as [->|Hne].
      * rewrite lookup_insert_eq. eauto.
      * rewrite lookup_insert_ne by done. auto.
    + intros c r'. destruct (decide (cpu o = c)) as [<-|Hne].
      * rewrite lookup_insert_eq. intros [= <-]. apply recorder_stop_wf. auto.
      * rewrite lookup_insert_ne by done. auto.
  - destruct (thread_step_cases c p)
      as [->|[(r & t & Hr & Ht & Hpc & ->)|(r & t & Hr & Ht & Hpc & Hl & ->)]];
      try done.
    split; simpl.
    + intros o' Ho'. destruct (decide (c = cpu o')) as [->|Hne].
      * rewrite lookup_insert_eq. eauto.
      * rewrite lookup_insert_ne by done. auto.
    + intros c' r'. destruct (decide (c = c')) as [<-|Hne].
      * rewrite lookup_insert_eq. intros [= <-].
        destruct (Hw c r Hr) as [Hd Ht']. rewrite Ht in Ht'. by split.
      * rewrite lookup_insert_ne by done. auto.
Qed.

Lemma rtc_step_wf (p p' : x86_adapt_plugin) :
  rtc step' p p' -> plugin_wf p -> plugin_wf p'.
Proof.
  induction 1; [done|]. intros Hwf. apply IHrtc. by eapply step_wf.
Qed.

Lemma reachable_wf (p : x86_adapt_plugin) : reachable' p -> plugin_wf p.
Proof.
  intros H. eapply rtc_step_wf; [exact H|apply plugin_wf_init].
Qed.

(** A run that ends alive is a sequence of steps. *)
Lemma run_steps (cs : list call) (p : x86_adapt_plugin)
    (rs : list reply) (p' : x86_adapt_plugin) :
  run' cs p = (rs, Alive p') -> rtc step' p p'.
Proof.
  revert p rs. induction cs as [|c cs IH]; intros p rs; simpl.
  - intros [= _ <-]. constructor.
  - destruct (perform' c p) as [r p1|e p1| |] eqn:E; try done.
    + destruct (run' cs p1) as [rs1 f1] eqn:E1. intros [= _ ->].
      eapply rtc_l; [|by eapply IH]. by eapply step_ok.
    + destruct (run' cs p1) as [rs1 f1] eqn:E1. intros [= _ ->].
      eapply rtc_l; [|by eapply IH]. by eapply step_raise.
Qed.

Lemma run_reachable (cs : list call) (p : x86_adapt_plugin)
    (rs : list reply) (p' : x86_adapt_plugin) :
  reachable' p -> run' cs p = (rs, Alive p') -> reachable' p'.
Proof.
  unfold reachable. intros Hp Hrun. etrans; [done|]. by eapply run_steps.
Qed.

Lemma at_insert_in_order_ne {V} (k k' : string) (v : V) (m : list (string * V)) :
  k ≠ k' -> at_ k' (insert_in_order k v m) = at_ k' m.
Proof.
  intros Hne. induction m as [|[k0 v0] m IH]; simpl.
  - destruct (String.eqb_spec k' k); [congruence|done].
  - destruct (String.ltb k k0); simpl.
    + destruct (String.eqb_spec k' k); [congruence|done].
    + by rewrite IH.
Qed.

Lemma at_emplace_ne {V} (k k' : string) (v : V) (m : list (string * V)) :
  k ≠ k' -> at_ k' (emplace k v m) = at_ k' m.
Proof.
  intros Hne. unfold emplace. destruct (at_ k m); [done|].
  by apply at_insert_in_order_ne.
Qed.

Lemma thread_step_knobs (c : Z) (p : x86_adapt_plugin) :
  knobs_ (thread_step' c p) = knobs_ p /\
  recorded_knobs_ (thread_step' c p) = recorded_knobs_ p /\
  devices_opened (thread_step' c p) = devices_opened p.
Proof.
  destruct (thread_step_cases c p)
    as [->|[(r & t & _ & _ & _ & ->)|(r & t & _ & _ & _ & _ & ->)]]; done.
Qed.

Lemma step_knobs_consistent (p p' : x86_adapt_plugin) :
  step' p p' -> knobs_consistent lookup p -> knobs_consistent lookup p'.
Proof.
  intros Hstep Hk.
  apply step_cases in Hstep
    as [(k & ci & Hci & ->)|[->|[(c & ->)|[(caller & k & h & H)|[(id & es & H)|(c & ->)]]]]];
    try done.
  - intros k' ci'. simpl. destruct (decide (k = k')) as [<-|Hne].
    + rewrite at_emplace. destruct (at_ k (knobs_ p)) eqn:E; simpl; intros [= <-]; auto.
    + rewrite at_emplace_ne by done. apply Hk.
  - apply add_metric_Ok in H as (ci & _ & _ & _ & _ & _ & _ & ->). done.
  - apply get_all_values_Ok_inv in H as (o & r & _ & _ & _ & ->). done.
  - intros k ci. destruct (thread_step_knobs c p) as [-> _]. apply Hk.
Qed.

Lemma reachable_knobs_consistent (p : x86_adapt_plugin) :
  reachable' p -> knobs_consistent lookup p.
Proof.
  unfold reachable. intros H.
  assert (forall q q', rtc step' q q' -> knobs_consistent lookup q ->
                       knobs_consistent lookup q') as Hrtc.
  { induction 1; [done|]. intros. apply IHrtc. by eapply step_knobs_consistent. }
  eapply Hrtc; [done|]. intros k ci. done.
Qed.

(** ** Declaring a metric *)

(** C8. For a name the catalogue knows, declaring it twice gives the same
    description both times, resolves to the same item, and the second
    declaration leaves the whole plugin, the entry of the name included,
    as the first one left it. *)
Theorem declare_idempotent (knob_name : string) (ci : configuration_item)
    (p : x86_adapt_plugin) :
  reachable' p ->
  lookup knob_name = Some ci ->
  exists props p1,
    get_metric_properties lookup knob_name p = Ok props p1 /\
    at_ knob_name (knobs_ p1) = Some ci /\
    get_metric_properties lookup knob_name p1 = Ok props p1.
Proof.
  intros Hp Hci. apply reachable_knobs_consistent in Hp.
  unfold_M. rewrite Hci. simpl. do 2 eexists. split; [done|].
  split.
  - simpl. rewrite at_emplace.
    destruct (at_ knob_name (knobs_ p)) as [ci'|] eqn:E; [|done].
    simpl. apply Hp in E. congruence.
  - unfold set_knobs_. simpl. by rewrite emplace_idem.
Qed.

(** ** Activating a metric *)

(** C5. A call of add_metric from a thread whose affinity mask holds more
    than one CPU throws the not-pinned exception and leaves the plugin as
    it was: no recorder created or started, no handle, no device opened. *)
Theorem add_metric_not_pinned (caller : os_thread) (knob_name : string)
    (p : x86_adapt_plugin) :
  1 < CPU_COUNT (affinity caller) ->
  add_metric device_available caller knob_name p = Raise NotPinned p.
Proof.
  intros Hcount. unfold add_metric, is_pinned.
  destruct (Z.eqb_spec (CPU_COUNT (affinity caller)) 1); [lia|done].
Qed.

(** ** Harvesting *)

Lemma thread_step_stopped (c : Z) (p : x86_adapt_plugin) :
  stopped_at c p -> thread_step' c p = p.
Proof.
  intros Hs. unfold thread_step. unfold stopped_at in Hs.
  destruct (recorders_ p !! c) as [r|]; [|done]. specialize (Hs r eq_refl).
  by rewrite Hs.
Qed.

Lemma harvest_valid (p : x86_adapt_plugin) (id : Z) (sink : list (Z * Z)) :
  plugin_wf p ->
  int_range id ->
  0 <= id < Z.of_nat (length (recorded_knobs_ p)) ->
  exists o r,
    recorded_knobs_ p !! Z.to_nat id = Some o /\
    vector_index (recorded_knobs_ p) id = Some o /\
    recorders_ p !! cpu o = Some r /\
    recorder_wf (cpu o) r /\
    get_all_values id sink p =
      Ok (sink ++ timeline_of p (cpu o) (item o))
         (set_values_
            (insert (cpu o)
               (<[item o := timeline_of p (cpu o) (item o)]>
                  (default ∅ (values_ p !! cpu o))))
            (set_recorders_ (insert (cpu o) (recorder_stop r)) p)).
Proof.
  intros [Hrec Hw] Hint Hid.
  destruct (lookup_lt_is_Some_2 (recorded_knobs_ p) (Z.to_nat id)) as [o Ho]; [lia|].
  destruct (Hrec o) as [r Hr]; [by eapply list_elem_of_lookup_2|].
  assert (vector_index (recorded_knobs_ p) id = Some o) as Hv.
  { rewrite vector_index_nonneg; [done|]. unfold int_range in Hint. lia. }
  exists o, r. repeat split; try done; [by apply (Hw _ _ Hr)..|].
  by apply get_all_values_valid.
Qed.

(** C1, as the code has it. For a handle that indexes the handle table,
    as the handles returned by the first 2^31 activations do,
    get_all_values stops the recorder of the handle's CPU, then writes the
    entries of the timeline of the handle's item to the cursor, after what
    the cursor held and in the order in which they were recorded. When it
    returns, the recorder is stopped: its thread is joined and gone, and a
    step of that thread writes nothing. *)
Theorem harvest_stops_then_drains (p : x86_adapt_plugin) (id : Z) (sink : list (Z * Z)) :
  reachable' p ->
  int_range id ->
  0 <= id < Z.of_nat (length (recorded_knobs_ p)) ->
  exists o r p',
    recorded_knobs_ p !! Z.to_nat id = Some o /\
    recorders_ p !! cpu o = Some r /\
    get_all_values id sink p = Ok (sink ++ timeline_of p (cpu o) (item o)) p' /\
    recorders_ p' !! cpu o = Some (recorder_stop r) /\
    running_ (recorder_stop r) = false /\
    thread_ (recorder_stop r) = None /\
    timeline_of p' (cpu o) (item o) = timeline_of p (cpu o) (item o) /\
    thread_step' (cpu o) p' = p'.
Proof.
  intros Hp Hint Hid. apply reachable_wf in Hp.
  destruct (harvest_valid p id sink Hp Hint Hid) as (o & r & Ho & _ & Hr & Hwr & Hok).
  destruct (recorder_stop_stopped (cpu o) r Hwr) as [Hrun Hth].
  exists o, r. eexists. split; [done|]. split; [done|].
  split; [exact Hok|].
  split; [simpl; by rewrite lookup_insert_eq|].
  split; [done|]. split; [done|]. split.
  - unfold timeline_of at 1. simpl. rewrite lookup_insert_eq. simpl.
    by rewrite lookup_insert_eq.
  - apply thread_step_stopped. intros r'. simpl. rewrite lookup_insert_eq.
    by intros [= <-].
Qed.

(** C10. get_all_values never answers a handle with an exception. For an
    int that no activation produced, negative or at least the size of the
    handle table, the unguarded access to the table is undefined
    behaviour; a handle of the table is the only one it is defined for. *)
Theorem get_all_values_unchecked (p : x86_adapt_plugin) (id : Z) (sink : list (Z * Z)) :
  reachable' p ->
  int_range id ->
  Z.of_nat (length (recorded_knobs_ p)) <= 2 ^ 63 ->
  (forall e p', get_all_values id sink p ≠ Raise e p') /\
  (id < 0 \/ Z.of_nat (length (recorded_knobs_ p)) <= id <->
   get_all_values id sink p = Undefined).
Proof.
  intros Hp Hint Hmax. split; [intros; apply get_all_values_never_raises|].
  split.
  - intros Hid. apply (vector_index_None (recorded_knobs_ p)) in Hid; [|done..].
    unfold_M. by rewrite Hid.
  - intros Hu. destruct (decide (0 <= id < Z.of_nat (length (recorded_knobs_ p)))) as [Hin|]; [|lia].
    apply reachable_wf in Hp.
    destruct (harvest_valid p id sink Hp Hint Hin) as (o & r & _ & _ & _ & _ & Hok).
    congruence.
Qed.

(** ** Timelines only grow *)

Lemma timeline_of_emplace (c c' : Z) (ci : configuration_item) (p : x86_adapt_plugin) :
  timeline_of (set_values_ (gmap_emplace c ∅) p) c' ci = timeline_of p c' ci.
Proof.
  unfold timeline_of. simpl. destruct (decide (c = c')) as [<-|Hne].
  - rewrite gmap_emplace_lookup. done.
  - by rewrite gmap_emplace_lookup_ne.
Qed.

Lemma timeline_of_read (o : oid) (c : Z) (ci : configuration_item)
    (f : gmap Z recorder_thread -> gmap Z recorder_thread) (p : x86_adapt_plugin) :
  timeline_of
    (set_values_
       (insert (cpu o)
          (<[item o := timeline_of p (cpu o) (item o)]> (default ∅ (values_ p !! cpu o))))
       (set_recorders_ f p)) c ci
  = timeline_of p c ci.
Proof.
  unfold timeline_of at 1. simpl. destruct (decide (cpu o = c)) as [<-|Hne].
  - rewrite lookup_insert_eq. simpl. destruct (decide (item o = ci)) as [<-|Hne'].
    + by rewrite lookup_insert_eq.
    + by rewrite lookup_insert_ne.
  - by rewrite lookup_insert_ne.
Qed.

Lemma add_metric_timeline (caller : os_thread) (knob_name : string)
    (p : x86_adapt_plugin) (h : Z) (p' : x86_adapt_plugin)
    (c : Z) (ci : configuration_item) :
  add_metric device_available caller knob_name p = Ok h p' ->
  timeline_of p' c ci = timeline_of p c ci.
Proof.
  intros H. apply add_metric_Ok in H as (ci' & _ & _ & _ & _ & _ & _ & ->).
  apply (timeline_of_emplace (sched_getcpu caller) c ci p).
Qed.

Lemma get_all_values_timeline (id : Z) (sink entries : list (Z * Z))
    (p p' : x86_adapt_plugin) (c : Z) (ci : configuration_item) :
  get_all_values id sink p = Ok entries p' ->
  timeline_of p' c ci = timeline_of p c ci.
Proof.
  intros H. apply get_all_values_Ok_inv in H as (o & r & _ & _ & _ & ->).
  apply timeline_of_read.
Qed.

Lemma thread_step_timeline (c0 c : Z) (ci : configuration_item) (p : x86_adapt_plugin) :
  timeline_of p c ci `prefix_of` timeline_of (thread_step' c0 p) c ci.
Proof.
  destruct (thread_step_cases c0 p)
    as [->|[(r & t & _ & _ & _ & ->)|(r & t & _ & _ & _ & _ & ->)]]; try done.
  unfold timeline_of at 2. simpl.
  destruct (decide (th_timelines t = c)) as [<-|Hne].
  - rewrite lookup_insert_eq. simpl.
    destruct (loop_body_timeline (device_ r) (knobs_ p)
                (default ∅ (values_ p !! th_timelines t)) (clock_reads p) ci)
      as (extra & -> & _).
    by exists extra.
  - by rewrite lookup_insert_ne.
Qed.

Lemma step_timeline (p p' : x86_adapt_plugin) (c : Z) (ci : configuration_item) :
  step' p p' -> timeline_of p c ci `prefix_of` timeline_of p' c ci.
Proof.
  intros Hstep.
  apply step_cases in Hstep
    as [(k & ci' & _ & ->)|[->|[(c' & ->)|[(caller & k & h & H)|[(id & es & H)|(c' & ->)]]]]];
    try done.
  - by rewrite (add_metric_timeline _ _ _ _ _ c ci H).
  - by rewrite (get_all_values_timeline _ _ _ _ _ c ci H).
  - apply thread_step_timeline.
Qed.

Lemma rtc_step_timeline (p p' : x86_adapt_plugin) (c : Z) (ci : configuration_item) :
  rtc step' p p' -> timeline_of p c ci `prefix_of` timeline_of p' c ci.
Proof.
  induction 1; [done|]. etrans; [|done]. by apply step_timeline.
Qed.

(** The handle table only grows, at its end. *)
Lemma step_recorded_knobs (p p' : x86_adapt_plugin) :
  step' p p' -> recorded_knobs_ p `prefix_of` recorded_knobs_ p'.
Proof.
  intros Hstep.
  apply step_cases in Hstep
    as [(k & ci' & _ & ->)|[->|[(c' & ->)|[(caller & k & h & H)|[(id & es & H)|(c' & ->)]]]]];
    try done.
  - apply add_metric_Ok in H as (ci' & _ & _ & _ & _ & _ & _ & ->). simpl.
    by eexists.
  - apply get_all_values_Ok_inv in H as (o & r & _ & _ & _ & ->). done.
  - destruct (thread_step_knobs c' p) as (_ & -> & _). done.
Qed.

Lemma rtc_step_recorded_knobs (p p' : x86_adapt_plugin) :
  rtc step' p p' -> recorded_knobs_ p `prefix_of` recorded_knobs_ p'.
Proof.
  induction 1; [done|]. etrans; [|done]. by apply step_recorded_knobs.
Qed.

Lemma vector_index_prefix {A} (v w : list A) (i : Z) (x : A) :
  v `prefix_of` w -> vector_index v i = Some x -> vector_index w i = Some x.
Proof.
  intros [k ->]. unfold vector_index.
  destruct (Z.ltb_spec (to_size_type i) (Z.of_nat (length v))) as [Hlt|]; [|done].
  intros Hx. rewrite length_app.
  destruct (Z.ltb_spec (to_size_type i) (Z.of_nat (length v + length k))); [|lia].
  by apply lookup_app_l_Some.
Qed.

(** ** A stopped recorder stays stopped until the next activation *)

Lemma perform_stopped (c : Z) (cl : call) (p p' : x86_adapt_plugin) :
  plugin_wf p -> stopped_at c p -> no_activation_on c [cl] ->
  (exists r, perform' cl p = Ok r p') \/ (exists e, perform' cl p = Raise e p') ->
  stopped_at c p' /\ forall ci, timeline_of p' c ci = timeline_of p c ci.
Proof.
  intros [Hrec Hw] Hs Hno Hc. apply perform_alive in Hc.
  destruct cl as [k|caller k|id|c0].
  - destruct Hc as [->|(ci & _ & ->)]; done.
  - assert (sched_getcpu caller ≠ c) as Hne.
    { apply (Hno caller k). apply list_elem_of_singleton. done. }
    destruct Hc as [->|[->|[h H]]]; try done.
    split; [|intros ci; by eapply add_metric_timeline].
    apply add_metric_Ok in H as (ci' & _ & _ & _ & _ & _ & _ & ->).
    intros r. simpl. rewrite lookup_insert_ne by done. apply Hs.
  - destruct Hc as [es H].
    split; [|intros ci; by eapply get_all_values_timeline].
    apply get_all_values_Ok_inv in H as (o & r & _ & Hr & _ & ->).
    intros r'. simpl. destruct (decide (cpu o = c)) as [<-|Hne].
    + rewrite lookup_insert_eq. intros [= <-].
      by destruct (recorder_stop_stopped (cpu o) r (Hw _ _ Hr)).
    + rewrite lookup_insert_ne by done. apply Hs.
  - subst p'.
    destruct (thread_step_cases c0 p)
      as [->|[(r & t & Hr & Ht & _ & ->)|(r & t & Hr & Ht & _ & _ & ->)]]; try done.
    + assert (c0 ≠ c) as Hne.
      { intros ->. specialize (Hs r Hr). congruence. }
      split; [|done]. intros r'. simpl. rewrite lookup_insert_ne by done. apply Hs.
    + assert (th_timelines t ≠ c) as Hne.
      { destruct (Hw c0 r Hr) as [_ Hwt]. rewrite Ht in Hwt.
        destruct Hwt as (_ & _ & ->). intros ->. specialize (Hs r Hr). congruence. }
      split; [done|]. intros ci. unfold timeline_of. simpl.
      by rewrite lookup_insert_ne.
Qed.

Lemma run_stopped (c : Z) (cs : list call) (p : x86_adapt_plugin)
    (rs : list reply) (p' : x86_adapt_plugin) :
  plugin_wf p -> stopped_at c p -> no_activation_on c cs ->
  run' cs p = (rs, Alive p') ->
  stopped_at c p' /\ forall ci, timeline_of p' c ci = timeline_of p c ci.
Proof.
  revert p rs. induction cs as [|cl cs IH]; intros p rs Hwf Hs Hno Hrun.
  - simpl in Hrun. by injection Hrun as _ <-.
  - apply run_cons_alive in Hrun as (p1 & r & rs' & Hperf & -> & Hrun).
    assert ((exists r, perform' cl p = Ok r p1) \/ (exists e, perform' cl p = Raise e p1))
      as Halive by (destruct Hperf as [?|(e & ? & _)]; eauto).
    destruct (perform_stopped c cl p p1) as [Hs1 Htl1]; try done.
    { intros caller k Hin. apply list_elem_of_singleton in Hin.
      apply (Hno caller k). rewrite Hin. by left. }
    destruct (IH p1 rs') as [Hs2 Htl2]; try done.
    + eapply step_wf; [|done]. destruct Hperf as [?|(e & ? & _)].
      * by eapply step_ok. * by eapply step_raise.
    + intros caller k Hin. apply (Hno caller k). by right.
    + split; [done|]. intros ci. by rewrite Htl2, Htl1.
Qed.

(** C4, as the code has it. get_all_values copies the timeline and leaves
    it in place. A second harvest of a handle therefore delivers every
    sample that the first one delivered, followed by the samples recorded
    since; it delivers exactly the same samples again when no metric was
    activated on the handle's CPU in between. *)
Theorem second_harvest_repeats_first (p : x86_adapt_plugin) (id : Z)
    (first : list (Z * Z)) (p1 : x86_adapt_plugin)
    (cs : list call) (rs : list reply) (p2 : x86_adapt_plugin)
    (second : list (Z * Z)) (p3 : x86_adapt_plugin) :
  reachable' p ->
  get_all_values id [] p = Ok first p1 ->
  run' cs p1 = (rs, Alive p2) ->
  get_all_values id [] p2 = Ok second p3 ->
  first `prefix_of` second /\
  (forall o, vector_index (recorded_knobs_ p) id = Some o ->
             no_activation_on (cpu o) cs -> second = first).
Proof.
  intros Hp H1 Hrun H2. apply reachable_wf in Hp.
  assert (plugin_wf p1) as Hwf1.
  { eapply step_wf; [|done]. eapply (step_ok _ _ _ _ _ _ _ (GetAllValues id)).
    unfold perform, bind. rewrite H1. done. }
  pose proof (fun c ci => get_all_values_timeline _ _ _ _ _ c ci H1) as Htl1.
  apply get_all_values_Ok_inv in H1 as (o & r & Ho & Hr & -> & Hp1).
  apply get_all_values_Ok_inv in H2 as (o2 & r2 & Ho2 & _ & -> & _).
  assert (recorded_knobs_ p1 = recorded_knobs_ p) as Hk1 by (by subst p1).
  assert (o2 = o) as ->.
  { pose proof (rtc_step_recorded_knobs _ _ (run_steps _ _ _ _ Hrun)) as Hpre.
    rewrite Hk1 in Hpre.
    pose proof (vector_index_prefix _ _ _ _ Hpre Ho). congruence. }
  simpl. split.
  - rewrite <- Htl1. apply rtc_step_timeline. by eapply run_steps.
  - intros o' Ho' Hno. assert (o' = o) as -> by congruence.
    destruct (run_stopped (cpu o) cs p1 rs p2) as [_ Htl]; try done.
    + subst p1. intros r'. simpl. rewrite lookup_insert_eq. intros [= <-].
      destruct Hp as [_ Hw].
      by destruct (recorder_stop_stopped (cpu o) r (Hw _ _ Hr)).
    + by rewrite Htl, Htl1.
Qed.

(** ** What the loop reads *)

Lemma loop_iteration_reads_table (p : x86_adapt_plugin) (c : Z)
    (r : recorder_thread) (t : thread) :
  plugin_wf p ->
  recorders_ p !! c = Some r -> thread_ r = Some t -> th_pc t = LoopHead ->
  (forall ci, exists extra,
      timeline_of (thread_step' c p) c ci = timeline_of p c ci ++ extra /\
      length extra = bindings_of ci (knobs_ p)) /\
  (forall c' ci, c' ≠ c -> timeline_of (thread_step' c p) c' ci = timeline_of p c' ci).
Proof.
  intros [_ Hw] Hr Ht Hpc.
  destruct (Hw c r Hr) as [_ Hwt]. rewrite Ht in Hwt. destruct Hwt as (_ & Hl & Htl).
  unfold thread_step. rewrite Hr, Ht, Hpc, Hl, Htl.
  destruct (loop_body' (device_ r) (knobs_ p) (default ∅ (values_ p !! c), clock_reads p))
    as [tl n] eqn:E.
  split.
  - intros ci.
    destruct (loop_body_timeline (device_ r) (knobs_ p)
                (default ∅ (values_ p !! c)) (clock_reads p) ci) as (extra & Hx & Hlen).
    rewrite E in Hx. simpl in Hx. exists extra. split; [|done].
    unfold timeline_of at 1. simpl. by rewrite lookup_insert_eq.
  - intros c' ci Hne. unfold timeline_of. simpl. by rewrite lookup_insert_ne.
Qed.

(** Without a declaration the metric table stays as it is. *)
Lemma run_no_declaration_knobs (cs : list call) (p : x86_adapt_plugin)
    (rs : list reply) (p' : x86_adapt_plugin) :
  no_declaration cs -> run' cs p = (rs, Alive p') -> knobs_ p' = knobs_ p.
Proof.
  revert p rs. induction cs as [|cl cs IH]; intros p rs Hno Hrun.
  - simpl in Hrun. by injection Hrun as _ <-.
  - apply run_cons_alive in Hrun as (p1 & r & rs' & Hperf & -> & Hrun).
    assert ((exists r, perform' cl p = Ok r p1) \/ (exists e, perform' cl p = Raise e p1))
      as Halive by (destruct Hperf as [?|(e & ? & _)]; eauto).
    apply perform_alive in Halive.
    rewrite (IH p1 rs'); [|intros k Hk; apply (Hno k); by right|done].
    destruct cl as [k|caller k|id|c].
    + exfalso. apply (Hno k). by left.
    + destruct Halive as [->|[->|[h H]]]; try done.
      by apply add_metric_Ok in H as (ci & _ & _ & _ & _ & _ & _ & ->).
    + destruct Halive as [es H].
      by apply get_all_values_Ok_inv in H as (o & r0 & _ & _ & _ & ->).
    + subst p1. apply thread_step_knobs.
Qed.

(** C2, as the code has it. The loop was given the plugin's metric table
    by reference and has no set of items of its own. As long as no metric
    is declared after a recorder was started, each iteration of its loop
    appends, for every item, one sample per entry that the table held at
    the start and that is bound to that item: every declared metric is
    read, whether or not it was activated on that CPU. The iteration
    writes to the timelines of its own CPU only. *)
Theorem loop_reads_the_metric_table (p : x86_adapt_plugin)
    (caller : os_thread) (knob_name : string) (h : Z) (p1 : x86_adapt_plugin)
    (cs : list call) (rs : list reply) (p2 : x86_adapt_plugin)
    (r : recorder_thread) (t : thread) :
  reachable' p ->
  add_metric device_available caller knob_name p = Ok h p1 ->
  no_declaration cs ->
  run' cs p1 = (rs, Alive p2) ->
  recorders_ p2 !! sched_getcpu caller = Some r ->
  thread_ r = Some t -> th_pc t = LoopHead ->
  knobs_ p2 = knobs_ p /\
  (forall ci, exists extra,
      timeline_of (thread_step' (sched_getcpu caller) p2) (sched_getcpu caller) ci
        = timeline_of p2 (sched_getcpu caller) ci ++ extra /\
      length extra = bindings_of ci (knobs_ p)) /\
  (forall c' ci, c' ≠ sched_getcpu caller ->
      timeline_of (thread_step' (sched_getcpu caller) p2) c' ci = timeline_of p2 c' ci).
Proof.
  intros Hp Hadd Hno Hrun Hr Ht Hpc.
  assert (knobs_ p2 = knobs_ p) as Hk.
  { rewrite (run_no_declaration_knobs cs p1 rs p2 Hno Hrun).
    by apply add_metric_Ok in Hadd as (ci & _ & _ & _ & _ & _ & _ & ->). }
  assert (plugin_wf p2) as Hwf.
  { eapply rtc_step_wf; [by eapply run_steps|].
    eapply step_wf; [|by apply reachable_wf].
    eapply (step_ok _ _ _ _ _ _ _ (AddMetric caller knob_name)).
    unfold perform, bind. by rewrite Hadd. }
  split; [done|]. rewrite <- Hk.
  by apply (loop_iteration_reads_table p2 (sched_getcpu caller) r t).
Qed.

(** ** Recorders and devices *)

Lemma handles_on_app (c : Z) (p : x86_adapt_plugin) (o : oid) :
  length (filter (fun o => cpu o = c) (recorded_knobs_ p ++ [o])) =
    (handles_on c p + if decide (cpu o = c) then 1 else 0)%nat.
Proof.
  unfold handles_on. rewrite filter_app, length_app. f_equal.
  rewrite filter_cons, filter_nil. by destruct (decide (cpu o = c)).
Qed.

Lemma opens_of_app (c c0 : Z) (p : x86_adapt_plugin) :
  length (filter (fun d => d = c) (devices_opened p ++ [c0])) =
    (opens_of c p + if decide (c0 = c) then 1 else 0)%nat.
Proof.
  unfold opens_of. rewrite filter_app, length_app. f_equal.
  rewrite filter_cons, filter_nil. by destruct (decide (c0 = c)).
Qed.

Lemma step_opens (c : Z) (p p' : x86_adapt_plugin) :
  step' p p' ->
  (handles_on c p <= opens_of c p)%nat -> (handles_on c p' <= opens_of c p')%nat.
Proof.
  intros Hstep Hle.
  apply step_cases in Hstep
    as [(k & ci' & _ & ->)|[->|[(c' & ->)|[(caller & k & h & H)|[(id & es & H)|(c' & ->)]]]]];
    try done.
  - unfold handles_on, opens_of in *. simpl.
    fold (opens_of c p). rewrite (opens_of_app c c' p). unfold opens_of. lia.
  - apply add_metric_Ok in H as (ci' & _ & _ & _ & _ & _ & _ & ->).
    unfold handles_on at 1, opens_of at 1. simpl.
    rewrite handles_on_app, opens_of_app. simpl. lia.
  - apply get_all_values_Ok_inv in H as (o & r & _ & _ & _ & ->). done.
  - unfold handles_on, opens_of in *.
    destruct (thread_step_knobs c' p) as (_ & -> & ->). done.
Qed.

Lemma reachable_opens (c : Z) (p : x86_adapt_plugin) :
  reachable' p -> (handles_on c p <= opens_of c p)%nat.
Proof.
  unfold reachable. intros H.
  assert (forall q q', rtc step' q q' ->
            (handles_on c q <= opens_of c q)%nat ->
            (handles_on c q' <= opens_of c q')%nat) as Hrtc.
  { induction 1; [done|]. intros. apply IHrtc. by eapply step_opens. }
  eapply Hrtc; [done|]. done.
Qed.

(** C3, as the code has it. A CPU with at least one handle has one
    recorder in the map, on a device of that CPU. add_metric opens the
    device of the CPU in every call that gets past the pinning test, so a
    successful activation adds one handle and one opening: the device has
    been opened at least once per handle of the CPU, not once. The
    recorder that the map already held is kept, with the device it was
    created on. *)
Theorem one_recorder_per_cpu_one_open_per_activation (p : x86_adapt_plugin) (c : Z) :
  reachable' p ->
  (handles_on c p <= opens_of c p)%nat /\
  ((0 < handles_on c p)%nat ->
   exists r, recorders_ p !! c = Some r /\ dev_id (device_ r) = c) /\
  (forall caller knob_name h p',
      sched_getcpu caller = c ->
      add_metric device_available caller knob_name p = Ok h p' ->
      handles_on c p' = S (handles_on c p) /\
      opens_of c p' = S (opens_of c p) /\
      exists r', recorders_ p' !! c = Some r' /\
                 forall r, recorders_ p !! c = Some r -> device_ r' = device_ r).
Proof.
  intros Hp. split; [by apply reachable_opens|].
  apply reachable_wf in Hp as [Hrec Hw]. split.
  - unfold handles_on. intros Hpos.
    destruct (filter (fun o => cpu o = c) (recorded_knobs_ p)) as [|o l] eqn:E;
      [simpl in Hpos; lia|].
    assert (o ∈ filter (fun o => cpu o = c) (recorded_knobs_ p)) as Ho
      by (rewrite E; by left).
    apply list_elem_of_filter in Ho as [<- Ho].
    destruct (Hrec o Ho) as [r Hr]. exists r. split; [done|].
    by destruct (Hw _ _ Hr).
  - intros caller k h p' <- H.
    apply add_metric_Ok in H as (ci' & _ & _ & _ & _ & _ & _ & ->).
    unfold handles_on at 1, opens_of at 1. simpl.
    rewrite handles_on_app, opens_of_app. simpl.
    rewrite !decide_True by done. split; [lia|]. split; [lia|].
    rewrite lookup_insert_eq. eexists. split; [done|].
    intros r Hr. unfold recorder_for. by rewrite Hr.
Qed.

(** ** The affinity mask of the recorder thread *)


(** ** Handles *)

Lemma perform_records (cl : call) (p : x86_adapt_plugin) (r : reply)
    (p' : x86_adapt_plugin) :
  perform' cl p = Ok r p' ->
  match cl with
  | AddMetric caller k =>
      exists ci, at_ k (knobs_ p) = Some ci /\
        r = Handle (static_cast_int (Z.of_nat (length (recorded_knobs_ p)))) /\
        recorded_knobs_ p' =
          recorded_knobs_ p ++ [ {| item := ci; cpu := sched_getcpu caller |} ]
  | _ => handles [r] = [] /\ recorded_knobs_ p' = recorded_knobs_ p
  end.
Proof.
  destruct cl as [k|caller k|id|c]; unfold perform, bind, ret; intros H.
  - destruct (get_metric_properties _ _ _) as [props p1| | |] eqn:E; try done.
    injection H as <- <-. apply get_metric_properties_Ok in E as (ci & _ & ->). done.
  - destruct (add_metric _ _ _ _) as [h p1| | |] eqn:E; try done.
    injection H as <- <-.
    apply add_metric_Ok in E as (ci & _ & _ & _ & Hat & _ & -> & ->). eauto.
  - destruct (get_all_values _ _ _) as [es p1| | |] eqn:E; try done.
    injection H as <- <-. apply get_all_values_Ok_inv in E as (o & r' & _ & _ & _ & ->).
    done.
  - unfold modify in H. injection H as <- <-.
    by destruct (thread_step_knobs c p) as (_ & -> & _).
Qed.

Lemma perform_raise_records (cl : call) (p : x86_adapt_plugin) (e : exn)
    (p' : x86_adapt_plugin) :
  perform' cl p = Raise e p' -> recorded_knobs_ p' = recorded_knobs_ p.
Proof.
  intros H.
  assert ((exists r, perform' cl p = Ok r p') \/ (exists e, perform' cl p = Raise e p'))
    as Hc by eauto.
  apply perform_alive in Hc. destruct cl as [k|caller k|id|c].
  - by destruct Hc as [->|(ci & _ & ->)].
  - destruct Hc as [->|[->|[h Hh]]]; try done.
    unfold perform, bind in H. by rewrite Hh in H.
  - destruct Hc as [es Hes]. unfold perform, bind in H. by rewrite Hes in H.
  - done.
Qed.

Lemma run_handles (cs : list call) (p : x86_adapt_plugin) (rs : list reply) (f : fate) :
  knobs_consistent lookup p ->
  run' cs p = (rs, f) ->
  handles rs =
    map (fun n => static_cast_int (Z.of_nat n))
        (seq (length (recorded_knobs_ p)) (length (handles rs))) /\
  forall p', f = Alive p' ->
    exists news,
      recorded_knobs_ p' = recorded_knobs_ p ++ news /\
      length news = length (handles rs) /\
      Forall2 (fun o a => lookup a.1 = Some (item o) /\ cpu o = a.2)
              news (activations cs rs).
Proof.
  revert p rs f. induction cs as [|cl cs IH]; intros p rs f Hk; simpl.
  - intros [= <- <-]. split; [done|]. intros p' [= <-]. exists [].
    by rewrite app_nil_r.
  - destruct (perform' cl p) as [r p1|e p1| |] eqn:E.
    + destruct (run' cs p1) as [rs1 f1] eqn:E1. intros [= <- <-].
      assert (knobs_consistent lookup p1) as Hk1.
      { eapply step_knobs_consistent; [|done]. by eapply step_ok. }
      destruct (IH p1 rs1 f1 Hk1 E1) as [IHh IHt].
      apply perform_records in E. destruct cl as [k|caller k|id|c].
      * destruct E as [Hh Hrec]. rewrite Hrec in IHh, IHt.
        destruct r; try done.
      * destruct E as (ci & Hat & -> & Hrec). rewrite Hrec in IHh, IHt.
        rewrite length_app in IHh. simpl in IHh.
        replace (length (recorded_knobs_ p) + 1)%nat
          with (S (length (recorded_knobs_ p))) in IHh by lia.
        split; [simpl; by rewrite <- IHh|].
        intros p' Hp'. destruct (IHt p' Hp') as (news & Hn & Hlen & Hall).
        exists ({| item := ci; cpu := sched_getcpu caller |} :: news).
        split; [by rewrite Hn, <- app_assoc|]. split; [simpl; by rewrite Hlen|].
        constructor; [|done]. simpl. split; [by apply Hk|done].
      * destruct E as [Hh Hrec]. rewrite Hrec in IHh, IHt.
        destruct r; try done.
      * destruct E as [Hh Hrec]. rewrite Hrec in IHh, IHt.
        destruct r; try done.
    + destruct (run' cs p1) as [rs1 f1] eqn:E1. intros [= <- <-].
      assert (knobs_consistent lookup p1) as Hk1.
      { eapply step_knobs_consistent; [|done]. by eapply step_raise. }
      destruct (IH p1 rs1 f1 Hk1 E1) as [IHh IHt].
      apply perform_raise_records in E. rewrite E in IHh, IHt.
      split; [done|]. by destruct cl.
    + intros [= <- <-]. done.
    + intros [= <- <-]. done.
Qed.

(** C7, as the code has it. The handles that the successful activations
    of a run return are, in order, the sizes 0, 1, 2, ... of the handle
    table, narrowed to int; up to the 2^31-th activation the n-th one
    returns n-1. The table holds, in the same order, the item and the CPU
    of each successful activation, and a handle below 2^31 indexes, now
    and after any further run, the record of the activation that
    returned it. *)
Theorem handles_index_the_table (cs : list call) (rs : list reply) (f : fate) :
  run' cs plugin_init = (rs, f) ->
  (forall n h, handles rs !! n = Some h ->
     h = static_cast_int (Z.of_nat n) /\ (Z.of_nat n < 2 ^ 31 -> h = Z.of_nat n)) /\
  (forall p, f = Alive p ->
     length (handles rs) = length (recorded_knobs_ p) /\
     Forall2 (fun o a => lookup a.1 = Some (item o) /\ cpu o = a.2)
             (recorded_knobs_ p) (activations cs rs) /\
     forall n h, handles rs !! n = Some h -> Z.of_nat n < 2 ^ 31 ->
       forall cs' rs' p', run' cs' p = (rs', Alive p') ->
         is_Some (recorded_knobs_ p !! n) /\
         vector_index (recorded_knobs_ p') h = recorded_knobs_ p !! n).
Proof.
  intros Hrun.
  destruct (run_handles cs plugin_init rs f) as [Hh Ht]; [done..|].
  simpl in Hh.
  assert (forall n h, handles rs !! n = Some h -> h = static_cast_int (Z.of_nat n))
    as Hcast.
  { intros n h Hnh.
    assert (n < length (handles rs))%nat as Hlt by (by eapply lookup_lt_Some).
    rewrite Hh in Hnh. rewrite list_lookup_fmap, lookup_seq_lt in Hnh by done.
    simpl in Hnh. by injection Hnh as <-. }
  split.
  - intros n h Hnh. split; [by apply Hcast|]. intros Hsmall.
    rewrite (Hcast n h Hnh). apply static_cast_int_small. lia.
  - intros p ->. destruct (Ht p eq_refl) as (news & Hn & Hlen & Hall). simpl in Hn.
    rewrite <- Hn in Hall, Hlen. split; [done|]. split; [done|].
    intros n h Hnh Hsmall cs' rs' p' Hrun'.
    assert (n < length (handles rs))%nat as Hlt by (by eapply lookup_lt_Some).
    rewrite (Hcast n h Hnh), static_cast_int_small by lia.
    destruct (lookup_lt_is_Some_2 (recorded_knobs_ p) n) as [o Ho]; [lia|].
    split; [eauto|]. rewrite Ho.
    apply (vector_index_prefix (recorded_knobs_ p)).
    + apply rtc_step_recorded_knobs. by eapply run_steps.
    + rewrite vector_index_nonneg by lia. by rewrite Nat2Z.id.
Qed.

End Steps.

(** * The properties on the test bench *)

Lemma bench_reachable (affinity_ok : bool) (cs : list call) (rs : list reply)
    (p : x86_adapt_plugin) :
  bench_run affinity_ok cs = (rs, Alive p) ->
  reachable bench_lookup bench_device_available (always affinity_ok)
    bench_clock bench_read p.
Proof.
  intros H. eapply run_reachable; [apply rtc_refl|exact H].
Qed.

(** A thread allowed on CPUs 0 and 1 asks for a metric. *)
Lemma add_metric_not_pinned_witness :
  1 < CPU_COUNT (affinity unpinned) /\
  add_metric bench_device_available unpinned "freq" plugin_init
    = Raise NotPinned plugin_init.
Proof.
  split; [by vm_compute|].
  apply add_metric_not_pinned. by vm_compute.
Defined.

(** The knob "freq" declared twice from the start. *)
Lemma declare_idempotent_witness :
  bench_lookup "freq" = Some freq /\
  exists props p1,
    get_metric_properties bench_lookup "freq" plugin_init = Ok props p1 /\
    at_ "freq" (knobs_ p1) = Some freq /\
    get_metric_properties bench_lookup "freq" p1 = Ok props p1.
Proof.
  split; [reflexivity|].
  apply (declare_idempotent bench_lookup bench_device_available (always true)
           bench_clock bench_read "freq" freq plugin_init);
    [apply rtc_refl|reflexivity].
Defined.

Lemma bench_state_reachable (affinity_ok : bool) (cs : list call) :
  (exists p, (bench_run affinity_ok cs).2 = Alive p) ->
  reachable bench_lookup bench_device_available (always affinity_ok)
    bench_clock bench_read (bench_state affinity_ok cs).
Proof.
  intros [p Hp]. unfold bench_state. rewrite Hp.
  apply (bench_reachable affinity_ok cs (bench_run affinity_ok cs).1).
  destruct (bench_run affinity_ok cs) as [rs f]. simpl in *. by subst.
Qed.

(** Handle -1 on a plugin without handles. *)
Lemma get_all_values_unchecked_witness :
  int_range (-1) /\
  Z.of_nat (length (recorded_knobs_ plugin_init)) <= 2 ^ 63 /\
  (forall e p', get_all_values (-1) [] plugin_init ≠ Raise e p') /\
  (-1 < 0 \/ Z.of_nat (length (recorded_knobs_ plugin_init)) <= -1 <->
   get_all_values (-1) [] plugin_init = Undefined).
Proof.
  assert (int_range (-1)) as Hint by (unfold int_range; lia).
  assert (Z.of_nat (length (recorded_knobs_ plugin_init)) <= 2 ^ 63) as Hmax
    by (simpl; lia).
  split; [exact Hint|]. split; [exact Hmax|].
  apply (get_all_values_unchecked bench_lookup bench_device_available (always true)
           bench_clock bench_read plugin_init (-1) []);
    [apply rtc_refl|exact Hint|exact Hmax].
Defined.

(** "freq" declared and activated on CPU 3, the thread in its loop after
    one iteration. *)
Lemma harvest_stops_then_drains_witness :
  let p := bench_state true
             [GetMetricProperties "freq"; AddMetric (pinned_to 3) "freq";
              ThreadStep 3; ThreadStep 3] in
  0 <= 0 < Z.of_nat (length (recorded_knobs_ p)) /\
  exists o r p',
    recorded_knobs_ p !! Z.to_nat 0 = Some o /\
    recorders_ p !! cpu o = Some r /\
    get_all_values 0 [] p = Ok ([] ++ timeline_of p (cpu o) (item o)) p' /\
    recorders_ p' !! cpu o = Some (recorder_stop r) /\
    running_ (recorder_stop r) = false /\
    thread_ (recorder_stop r) = None /\
    timeline_of p' (cpu o) (item o) = timeline_of p (cpu o) (item o) /\
    thread_step (always true) bench_clock bench_read (cpu o) p' = p'.
Proof.
  intros p.
  assert (0 <= 0 < Z.of_nat (length (recorded_knobs_ p))) as Hid.
  { assert (length (recorded_knobs_ p) = 1%nat) as -> by (vm_compute; reflexivity). lia. }
  split; [exact Hid|].
  apply (harvest_stops_then_drains bench_lookup bench_device_available (always true)
           bench_clock bench_read p 0 []).
  - apply bench_state_reachable. eexists. vm_compute. reflexivity.
  - unfold int_range; lia.
  - exact Hid.
Defined.

(** "freq" and "volt" are declared, "freq" is activated on CPU 3, and the
    thread enters its loop and iterates; the next iteration is looked at. *)
Lemma loop_reads_the_metric_table_witness :
  let p := bench_state true [GetMetricProperties "freq"; GetMetricProperties "volt"] in
  let p1 := after (add_metric bench_device_available (pinned_to 3) "freq" p) in
  let p2 := bench_state true
              [GetMetricProperties "freq"; GetMetricProperties "volt";
               AddMetric (pinned_to 3) "freq"; ThreadStep 3; ThreadStep 3] in
  let p3 := thread_step (always true) bench_clock bench_read 3 p2 in
  add_metric bench_device_available (pinned_to 3) "freq" p = Ok 0 p1 /\
  no_declaration [ThreadStep 3; ThreadStep 3] /\
  run bench_lookup bench_device_available (always true) bench_clock bench_read
      [ThreadStep 3; ThreadStep 3] p1 = ([Stepped; Stepped], Alive p2) /\
  knobs_ p2 = knobs_ p /\
  (forall ci, exists extra,
      timeline_of p3 3 ci = timeline_of p2 3 ci ++ extra /\
      length extra = bindings_of ci (knobs_ p)) /\
  (forall c' ci, c' ≠ 3 -> timeline_of p3 c' ci = timeline_of p2 c' ci).
Proof.
  intros p p1 p2 p3.
  assert (add_metric bench_device_available (pinned_to 3) "freq" p = Ok 0 p1) as Hadd
    by (vm_compute; reflexivity).
  assert (no_declaration [ThreadStep 3; ThreadStep 3]) as Hno.
  { intros k Hk. apply elem_of_cons in Hk as [Hk|Hk]; [discriminate Hk|].
    apply list_elem_of_singleton in Hk. discriminate Hk. }
  assert (run bench_lookup bench_device_available (always true) bench_clock bench_read
            [ThreadStep 3; ThreadStep 3] p1 = ([Stepped; Stepped], Alive p2)) as Hrun
    by (vm_compute; reflexivity).
  split; [exact Hadd|]. split; [exact Hno|]. split; [exact Hrun|].
  eapply (loop_reads_the_metric_table bench_lookup bench_device_available (always true)
            bench_clock bench_read p (pinned_to 3) "freq" 0 p1
            [ThreadStep 3; ThreadStep 3] [Stepped; Stepped] p2);
    [|exact Hadd|exact Hno|exact Hrun|..].
  - apply bench_state_reachable. eexists. vm_compute. reflexivity.
  - vm_compute. reflexivity.
  - reflexivity.
  - reflexivity.
Defined.

(** After a harvest the knob is activated on CPU 3 a second time. *)
Lemma one_recorder_per_cpu_one_open_per_activation_witness :
  let p := bench_state true
             [GetMetricProperties "freq"; AddMetric (pinned_to 3) "freq";
              ThreadStep 3; ThreadStep 3; GetAllValues 0] in
  let p' := after (add_metric bench_device_available (pinned_to 3) "freq" p) in
  (handles_on 3 p <= opens_of 3 p)%nat /\
  (exists r, recorders_ p !! 3 = Some r /\ dev_id (device_ r) = 3) /\
  handles_on 3 p' = S (handles_on 3 p) /\
  opens_of 3 p' = S (opens_of 3 p) /\
  exists r', recorders_ p' !! 3 = Some r' /\
             forall r, recorders_ p !! 3 = Some r -> device_ r' = device_ r.
Proof.
  intros p p'.
  destruct (one_recorder_per_cpu_one_open_per_activation bench_lookup
              bench_device_available (always true) bench_clock bench_read p 3)
    as (Hle & Hrec & Hadd).
  { apply bench_state_reachable. eexists. vm_compute. reflexivity. }
  split; [exact Hle|]. split.
  - apply Hrec. assert (handles_on 3 p = 1%nat) as -> by (vm_compute; reflexivity). lia.
  - apply (Hadd (pinned_to 3) "freq" 1 p'); [reflexivity|].
    vm_compute. reflexivity.
Defined.

(** Two harvests of handle 0 with one more step of the stopped thread
    in between. *)
Lemma second_harvest_repeats_first_witness :
  let p := bench_state true
             [GetMetricProperties "freq"; AddMetric (pinned_to 3) "freq";
              ThreadStep 3; ThreadStep 3] in
  let p1 := after (get_all_values 0 [] p) in
  get_all_values 0 [] p = Ok [(0, 100)] p1 /\
  run bench_lookup bench_device_available (always true) bench_clock bench_read
      [ThreadStep 3] p1 = ([Stepped], Alive p1) /\
  get_all_values 0 [] p1 = Ok [(0, 100)] p1 /\
  [(0, 100)] `prefix_of` [(0, 100)] /\
  [(0, 100)] = [(0, 100)].
Proof.
  intros p p1.
  assert (get_all_values 0 [] p = Ok [(0, 100)] p1) as H1 by (vm_compute; reflexivity).
  assert (run bench_lookup bench_device_available (always true) bench_clock bench_read
            [ThreadStep 3] p1 = ([Stepped], Alive p1)) as Hrun by (vm_compute; reflexivity).
  assert (get_all_values 0 [] p1 = Ok [(0, 100)] p1) as H2 by (vm_compute; reflexivity).
  split; [exact H1|]. split; [exact Hrun|]. split; [exact H2|].
  destruct (second_harvest_repeats_first bench_lookup bench_device_available
              (always true) bench_clock bench_read
              p 0 [(0, 100)] p1 [ThreadStep 3] [Stepped] p1 [(0, 100)] p1)
    as [Hpre Heq]; [|exact H1|exact Hrun|exact H2|].
  { apply bench_state_reachable. eexists. vm_compute. reflexivity. }
  split; [exact Hpre|].
  apply (Heq {| item := freq; cpu := 3 |}); [vm_compute; reflexivity|].
  intros caller k Hin. apply list_elem_of_singleton in Hin. discriminate Hin.
Defined.

(** One declaration and one activation on CPU 3. *)
Lemma handles_index_the_table_witness :
  let cs := [GetMetricProperties "freq"; AddMetric (pinned_to 3) "freq"] in
  let rs := (bench_run true cs).1 in
  let p := bench_state true cs in
  bench_run true cs = (rs, Alive p) /\
  handles rs !! 0%nat = Some 0 /\
  0 = static_cast_int (Z.of_nat 0) /\
  0 = Z.of_nat 0 /\
  length (handles rs) = length (recorded_knobs_ p) /\
  Forall2 (fun o a => bench_lookup a.1 = Some (item o) /\ cpu o = a.2)
          (recorded_knobs_ p) (activations cs rs) /\
  is_Some (recorded_knobs_ p !! 0%nat) /\
  vector_index (recorded_knobs_ p) 0 = recorded_knobs_ p !! 0%nat.
Proof.
  intros cs rs p.
  assert (bench_run true cs = (rs, Alive p)) as Hrun by (vm_compute; reflexivity).
  assert (handles rs !! 0%nat = Some 0) as Hh by (vm_compute; reflexivity).
  assert (Z.of_nat 0 < 2 ^ 31) as Hsmall by (simpl; lia).
  split; [exact Hrun|]. split; [exact Hh|].
  destruct (handles_index_the_table bench_lookup bench_device_available (always true)
              bench_clock bench_read cs rs (Alive p) Hrun) as [Hdense Htable].
  destruct (Hdense 0%nat 0 Hh) as [Hcast Hz].
  split; [exact Hcast|]. split; [exact (Hz Hsmall)|].
  destruct (Htable p eq_refl) as (Hlen & Hall & Hidx).
  split; [exact Hlen|]. split; [exact Hall|].
  apply (Hidx 0%nat 0 Hh Hsmall [] [] p). reflexivity.
Defined.


(** ** Where the code departs from the specification *)

(** C2 fails. "freq" and "volt" are declared, only "freq" is activated on
    CPU 3, and no metric is declared afterwards. The first iteration of the
    loop of CPU 3 records a sample of "volt", an item that no activation
    registered for CPU 3. *)
Lemma loop_reads_items_never_registered :
  exists rs p,
    bench_run true
      [GetMetricProperties "freq"; GetMetricProperties "volt";
       AddMetric (pinned_to 3) "freq"; ThreadStep 3; ThreadStep 3] = (rs, Alive p) /\
    handles rs = [0] /\
    recorded_knobs_ p = [ {| item := freq; cpu := 3 |} ] /\
    timeline_of p 3 freq = [(0, 100)] /\
    timeline_of p 3 volt = [(1, 101)].
Proof.
  eexists _, _. split; [vm_compute; reflexivity|].
  repeat split; vm_compute; reflexivity.
Qed.

(** C3 fails. "freq" is activated on CPU 3, harvested, and activated on
    CPU 3 again: two handles, one recorder, and the device of CPU 3 has
    been opened twice. *)
Lemma device_opened_once_per_activation :
  exists rs p r,
    bench_run true
      [GetMetricProperties "freq"; AddMetric (pinned_to 3) "freq";
       GetAllValues 0; AddMetric (pinned_to 3) "freq"] = (rs, Alive p) /\
    handles rs = [0; 1] /\
    devices_opened p = [3; 3] /\
    opens_of 3 p = 2%nat /\
    recorders_ p !! 3 = Some r /\ device_ r = {| dev_id := 3; dev_open := 0 |}.
Proof.
  eexists _, _, _. split; [vm_compute; reflexivity|].
  repeat split; vm_compute; reflexivity.
Qed.

(** C4 fails. The recorder of CPU 3 records two samples and is not
    started again; the second harvest of handle 0 delivers the two
    samples that the first harvest had delivered already. *)
Lemma second_harvest_delivers_old_samples :
  exists rs p,
    bench_run true
      [GetMetricProperties "freq"; AddMetric (pinned_to 3) "freq";
       ThreadStep 3; ThreadStep 3; ThreadStep 3;
       GetAllValues 0; GetAllValues 0] = (rs, Alive p) /\
    handles rs = [0] /\
    harvested rs = [ [(0, 100); (1, 101)]; [(0, 100); (1, 101)] ].
Proof.
  eexists _, _. split; [vm_compute; reflexivity|].
  split; vm_compute; reflexivity.
Qed.


(** C6, on the code. Two metrics are declared and activated from the
    same thread, pinned to CPU 3. The first activation returns handle 0
    and leaves the recorder of CPU 3 running. The second activation calls
    start on that running recorder: the assignment to [thread_] destroys
    the thread that was never joined, and the process is terminated. *)
Theorem second_activation_on_running_cpu_terminates :
  bench_run true
    [GetMetricProperties "freq"; GetMetricProperties "volt";
     AddMetric (pinned_to 3) "freq"]
  = ([Properties [ {| mp_name := "freq"; mp_description := "knob"; mp_unit := "#";
                      mp_mode := absolute_point; mp_value_type := value_uint |} ];
      Properties [ {| mp_name := "volt"; mp_description := "knob"; mp_unit := "#";
                      mp_mode := absolute_point; mp_value_type := value_uint |} ];
      Handle 0],
     Alive (bench_state true
              [GetMetricProperties "freq"; GetMetricProperties "volt";
               AddMetric (pinned_to 3) "freq"])) /\
  (exists r t,
      recorders_ (bench_state true
                    [GetMetricProperties "freq"; GetMetricProperties "volt";
                     AddMetric (pinned_to 3) "freq"]) !! 3 = Some r /\
      running_ r = true /\ thread_ r = Some t) /\
  add_metric bench_device_available (pinned_to 3) "volt"
    (bench_state true
       [GetMetricProperties "freq"; GetMetricProperties "volt";
        AddMetric (pinned_to 3) "freq"]) = Terminate /\
  (bench_run true
     [GetMetricProperties "freq"; GetMetricProperties "volt";
      AddMetric (pinned_to 3) "freq"; AddMetric (pinned_to 3) "volt"]).2 = Terminated.
Proof.
  split; [vm_compute; reflexivity|].
  split; [eexists _, _; repeat split; vm_compute; reflexivity|].
  split; vm_compute; reflexivity.
Qed.
(** ** A run that outgrows int *)

Section Overflow.

Local Abbreviation bench_run' :=
  (run bench_lookup bench_device_available (always true) bench_clock bench_read).

Lemma run_app (cs1 cs2 : list call) (p : x86_adapt_plugin) (rs1 : list reply)
    (p1 : x86_adapt_plugin) :
  bench_run' cs1 p = (rs1, Alive p1) ->
  bench_run' (cs1 ++ cs2) p = (rs1 ++ (bench_run' cs2 p1).1, (bench_run' cs2 p1).2).
Proof.
  revert p rs1. induction cs1 as [|c cs1 IH]; intros p rs1; simpl.
  - intros [= <- <-]. by destruct (bench_run' cs2 p).
  - destruct (perform _ _ _ _ _ c p) as [r p'|e p'| |]; try done.
    + destruct (bench_run' cs1 p') as [rs f] eqn:E. intros [= <- ->].
      by rewrite (IH _ _ E).
    + destruct (bench_run' cs1 p') as [rs f] eqn:E. intros [= <- ->].
      by rewrite (IH _ _ E).
Qed.

Lemma handles_app (rs1 rs2 : list reply) :
  handles (rs1 ++ rs2) = handles rs1 ++ handles rs2.
Proof.
  unfold handles. apply omap_app.
Qed.

Lemma activation_between_rounds (p : x86_adapt_plugin) :
  between_rounds p ->
  exists ci,
    add_metric bench_device_available (pinned_to 3) "freq" p =
      Ok (static_cast_int (Z.of_nat (length (recorded_knobs_ p))))
         {| knobs_ := knobs_ p;
            recorded_knobs_ := recorded_knobs_ p ++ [ {| item := ci; cpu := 3 |} ];
            recorders_ := <[3 := started (pinned_to 3) 3 (recorder_for 3 p)]> (recorders_ p);
            values_ := gmap_emplace 3 ∅ (values_ p);
            devices_opened := devices_opened p ++ [3];
            clock_reads := clock_reads p |}.
Proof.
  intros (Hwf & [ci Hci] & Hs & Hhead). exists ci.
  apply (add_metric_stopped bench_device_available (pinned_to 3) "freq" p ci);
    try done.
  unfold recorder_for. destruct (recorders_ p !! sched_getcpu (pinned_to 3)) as [r|] eqn:E;
    [|done].
  simpl. by apply Hs.
Qed.

Lemma round_between_rounds (p : x86_adapt_plugin) :
  between_rounds p ->
  exists rs p',
    bench_run' activate_and_harvest p = (rs, Alive p') /\
    between_rounds p' /\ length (handles rs) = 1%nat.
Proof.
  intros Hb. pose proof Hb as (Hwf & Hat & Hs & Hhead).
  destruct (activation_between_rounds p Hb) as [ci Hadd].
  set (p1 := {| knobs_ := knobs_ p;
                recorded_knobs_ := recorded_knobs_ p ++ [ {| item := ci; cpu := 3 |} ];
                recorders_ := <[3 := started (pinned_to 3) 3 (recorder_for 3 p)]> (recorders_ p);
                values_ := gmap_emplace 3 ∅ (values_ p);
                devices_opened := devices_opened p ++ [3];
                clock_reads := clock_reads p |}) in *.
  assert (exists o, recorded_knobs_ p1 !! 0%nat = Some o /\ cpu o = 3) as (o & Ho & Hcpu).
  { simpl. destruct (recorded_knobs_ p) as [|o l] eqn:E; simpl; [eauto|].
    exists o. split; [done|]. by apply Hhead. }
  assert (vector_index (recorded_knobs_ p1) 0 = Some o) as Hv.
  { by rewrite vector_index_nonneg by lia. }
  assert (recorders_ p1 !! cpu o = Some (started (pinned_to 3) 3 (recorder_for 3 p))) as Hr.
  { rewrite Hcpu. simpl. by rewrite lookup_insert_eq. }
  pose proof (get_all_values_valid 0 [] p1 o _ Hv Hr) as Hget.
  unfold activate_and_harvest, run, perform, bind, ret.
  rewrite Hadd, Hget.
  eexists _, _. split; [done|]. split; [|done].
  split; [|split; [done|split]].
  - assert (plugin_wf p1) as Hwf1.
    { eapply (step_wf bench_lookup bench_device_available (always true)
                bench_clock bench_read); [|exact Hwf].
      eapply (step_ok _ _ _ _ _ _ _ (AddMetric (pinned_to 3) "freq")).
      unfold perform, bind. rewrite Hadd. done. }
    eapply (step_wf bench_lookup bench_device_available (always true)
              bench_clock bench_read); [|exact Hwf1].
    eapply (step_ok _ _ _ _ _ _ _ (GetAllValues 0)).
    unfold perform, bind. rewrite Hget. done.
  - intros r. simpl. rewrite Hcpu, lookup_insert_eq. by intros [= <-].
  - intros o' Ho'. assert (o' = o) as -> by (simpl in Ho, Ho'; congruence). done.
Qed.

Lemma rounds_between_rounds (n : nat) (p : x86_adapt_plugin) :
  between_rounds p ->
  exists rs p',
    bench_run' (concat (replicate n activate_and_harvest)) p = (rs, Alive p') /\
    between_rounds p' /\ length (handles rs) = n.
Proof.
  revert p. induction n as [|n IH]; intros p Hb.
  - exists [], p. done.
  - destruct (round_between_rounds p Hb) as (rs1 & p1 & Hrun1 & Hb1 & Hlen1).
    destruct (IH p1 Hb1) as (rs2 & p2 & Hrun2 & Hb2 & Hlen2).
    exists (rs1 ++ rs2), p2.
    change (concat (replicate (S n) activate_and_harvest))
      with (activate_and_harvest ++ concat (replicate n activate_and_harvest)).
    rewrite (run_app _ _ _ _ _ Hrun1), Hrun2. simpl.
    split; [done|]. split; [done|].
    rewrite handles_app, length_app. lia.
Qed.

Lemma many_activations_alive (n : nat) :
  exists rs p,
    bench_run true (many_activations n) = (rs, Alive p) /\
    length (handles rs) = S n.
Proof.
  set (p0 := set_knobs_ (emplace "freq" freq) plugin_init).
  assert (between_rounds p0) as Hb0.
  { split; [apply plugin_wf_init|]. split; [by eexists|]. split.
    - intros r. simpl. by rewrite lookup_empty.
    - intros o. done. }
  destruct (rounds_between_rounds n p0 Hb0) as (rs1 & p1 & Hrun1 & Hb1 & Hlen1).
  destruct (activation_between_rounds p1 Hb1) as [ci Hadd].
  unfold bench_run, many_activations.
  change (bench_run' (GetMetricProperties "freq" :: ?cs) plugin_init)
    with (let '(rs, f) := bench_run' cs p0 in
          (Properties [ {| mp_name := "freq"; mp_description := "knob"; mp_unit := "#";
                           mp_mode := absolute_point; mp_value_type := value_uint |} ]
             :: rs, f)).
  rewrite (run_app _ _ _ _ _ Hrun1). simpl run. unfold perform, bind, ret.
  rewrite Hadd. simpl. eexists _, _. split; [done|].
  simpl. rewrite handles_app, length_app, Hlen1. simpl. lia.
Qed.

Lemma many_activations_last (n : nat) :
  exists rs p,
    bench_run true (many_activations n) = (rs, Alive p) /\
    handles rs !! n = Some (static_cast_int (Z.of_nat n)).
Proof.
  destruct (many_activations_alive n) as (rs & p & Hrun & Hlen).
  exists rs, p. split; [done|].
  destruct (run_handles bench_lookup bench_device_available (always true)
              bench_clock bench_read (many_activations n) plugin_init rs (Alive p))
    as [Hh _]; [done|exact Hrun|].
  rewrite Hh, Hlen. rewrite list_lookup_fmap, lookup_seq_lt by lia. done.
Qed.

Lemma many_activations_table (n : nat) :
  exists rs p,
    bench_run true (many_activations n) = (rs, Alive p) /\
    handles rs !! n = Some (static_cast_int (Z.of_nat n)) /\
    length (recorded_knobs_ p) = S n.
Proof.
  destruct (many_activations_alive n) as (rs & p & Hrun & Hlen).
  exists rs, p. split; [done|].
  destruct (run_handles bench_lookup bench_device_available (always true)
              bench_clock bench_read (many_activations n) plugin_init rs (Alive p))
    as [Hh Ht]; [done|exact Hrun|].
  split.
  - rewrite Hh, Hlen. rewrite list_lookup_fmap, lookup_seq_lt by lia. done.
  - destruct (Ht p eq_refl) as (news & Hn & Hnews & _). simpl in Hn.
    by rewrite Hn, Hnews.
Qed.

End Overflow.

(** C7 fails. "freq" is activated on CPU 3 and harvested 2^31 times, and
    activated once more. Every call returns; the last activation, the
    (2^31 + 1)-th, returns the handle -2^31 and not 2^31. *)
Lemma handle_wraps_after_many_activations :
  exists rs p,
    bench_run true (many_activations (Z.to_nat (2 ^ 31))) = (rs, Alive p) /\
    handles rs !! Z.to_nat (2 ^ 31) = Some (- 2 ^ 31) /\
    - 2 ^ 31 <> 2 ^ 31.
Proof.
  destruct (many_activations_last (Z.to_nat (2 ^ 31))) as (rs & p & Hrun & Hh).
  exists rs, p. split; [exact Hrun|]. split; [|lia].
  rewrite Hh. rewrite Z2Nat.id by lia. reflexivity.
Qed.

(** C1 fails. In the same run the last activation, the (2^31 + 1)-th,
    returns the handle -2^31. A harvest of that handle, whatever the
    cursor, indexes the handle table outside its 2^31 + 1 records: it
    stops no recorder and writes no entry, its behaviour is undefined. *)
Lemma harvest_of_wrapped_handle_undefined :
  exists rs p,
    bench_run true (many_activations (Z.to_nat (2 ^ 31))) = (rs, Alive p) /\
    handles rs !! Z.to_nat (2 ^ 31) = Some (- 2 ^ 31) /\
    forall sink, get_all_values (- 2 ^ 31) sink p = Undefined.
Proof.
  destruct (many_activations_table (Z.to_nat (2 ^ 31))) as (rs & p & Hrun & Hh & Hlen).
  exists rs, p. split; [exact Hrun|]. split.
  - rewrite Hh. rewrite Z2Nat.id by lia. reflexivity.
  - intros sink.
    assert (vector_index (recorded_knobs_ p) (- 2 ^ 31) = None) as Hv.
    { apply vector_index_None.
      - unfold int_range. lia.
      - rewrite Hlen. lia.
      - left. lia. }
    unfold get_all_values, recorded_knobs_index, bind. by rewrite Hv.
Qed.

(** * Further properties of the code *)

(** ** Failed activations *)

Section Activation.

Variable lookup : string -> option configuration_item.
Variable device_available : Z -> bool.
Variable sched_setaffinity_ok : cpu_set_t -> bool.
Variable measurement_clock_now : nat -> Z.
Variable device_read : device -> configuration_item -> nat -> Z.

Local Abbreviation thread_step' :=
  (thread_step sched_setaffinity_ok measurement_clock_now device_read).
Local Abbreviation step' :=
  (step lookup device_available sched_setaffinity_ok measurement_clock_now device_read).
Local Abbreviation run' :=
  (run lookup device_available sched_setaffinity_ok measurement_clock_now device_read).
Local Abbreviation reachable' :=
  (reachable lookup device_available sched_setaffinity_ok measurement_clock_now device_read).

(** X1. An activation that throws at one of its checks before start - the
    caller is not pinned, its CPU is not known, the device does not open,
    the name is not in the metric table - has allocated no handle,
    created, started or stopped no recorder, and touched no timeline and
    no entry of the metric table. Unless the exception is the out-of-range
    of the metric table the plugin is exactly as it was before the call;
    with that exception the device of the caller's CPU has been opened. *)
Theorem failed_activation_changes_nothing (caller : os_thread) (knob_name : string)
    (p : x86_adapt_plugin) (e : exn) (p' : x86_adapt_plugin) :
  e = NotPinned \/ e = GetCpuFailed \/ e = DeviceOpenFailure \/ e = OutOfRange ->
  add_metric device_available caller knob_name p = Raise e p' ->
  knobs_ p' = knobs_ p /\ recorded_knobs_ p' = recorded_knobs_ p /\
  recorders_ p' = recorders_ p /\ values_ p' = values_ p /\
  clock_reads p' = clock_reads p /\
  (e ≠ OutOfRange -> p' = p) /\
  (e = OutOfRange -> devices_opened p' = devices_opened p ++ [sched_getcpu caller]).
Proof.
  intros _ H. pose proof H as H'.
  apply add_metric_Raise in H as [->|(-> & _ & ->)].
  - repeat split; try done. intros ->. revert H'. unfold_M. simpl.
    destruct (CPU_COUNT (affinity caller) =? 1); simpl; [|done].
    destruct (sched_getcpu caller <? 0); [done|].
    destruct (device_available (sched_getcpu caller)); simpl; [|done].
    destruct (at_ knob_name (knobs_ p)) eqn:Hat; simpl.
    + rewrite gmap_emplace_lookup. unfold recorder_start. by destruct (thread_ _).
    + intros [= Heq]. apply (f_equal devices_opened) in Heq. simpl in Heq.
      exfalso. apply (f_equal length) in Heq. rewrite length_app in Heq.
      simpl in Heq. lia.
  - repeat split; try done.
Qed.

(** X2. When the operating system cannot tell the CPU of a pinned caller,
    the activation throws before the device is opened and leaves the
    plugin as it was. *)
Theorem add_metric_getcpu_failure (caller : os_thread) (knob_name : string)
    (p : x86_adapt_plugin) :
  CPU_COUNT (affinity caller) = 1 ->
  sched_getcpu caller < 0 ->
  add_metric device_available caller knob_name p = Raise GetCpuFailed p.
Proof.
  intros Hpin Hcpu. unfold_M. rewrite Hpin. simpl.
  destruct (Z.ltb_spec (sched_getcpu caller) 0); [done|lia].
Qed.

(** X3. Activating a name that is not in the metric table throws the
    out-of-range of the table. By then the device of the caller's CPU has
    been opened: the opening is the one change that the failed call
    leaves behind. *)
Theorem add_metric_undeclared_knob (caller : os_thread) (knob_name : string)
    (p : x86_adapt_plugin) :
  CPU_COUNT (affinity caller) = 1 ->
  0 <= sched_getcpu caller ->
  device_available (sched_getcpu caller) = true ->
  at_ knob_name (knobs_ p) = None ->
  add_metric device_available caller knob_name p =
    Raise OutOfRange (set_devices_opened (fun l => l ++ [sched_getcpu caller]) p).
Proof.
  intros Hpin Hcpu Hdev Hat. unfold_M. rewrite Hpin. simpl.
  destruct (Z.ltb_spec (sched_getcpu caller) 0); [lia|].
  rewrite Hdev. simpl. by rewrite Hat.
Qed.

(** X4. A name that the catalogue does not know can be neither declared
    nor activated, whatever was declared and activated before: declaring
    it throws and leaves the plugin as it was, and no activation of it
    returns a handle or ends the process. *)
Theorem unknown_metric_never_activated (knob_name : string) (p : x86_adapt_plugin) :
  reachable' p ->
  lookup knob_name = None ->
  get_metric_properties lookup knob_name p = Raise UnknownMetric p /\
  forall caller,
    (forall h p', add_metric device_available caller knob_name p ≠ Ok h p') /\
    add_metric device_available caller knob_name p ≠ Terminate.
Proof.
  intros Hp Hl. split; [unfold_M; by rewrite Hl|].
  apply reachable_knobs_consistent in Hp.
  assert (at_ knob_name (knobs_ p) = None) as Hat.
  { destruct (at_ knob_name (knobs_ p)) as [ci|] eqn:E; [|done].
    apply Hp in E. congruence. }
  intros caller. unfold_M. simpl.
  destruct (CPU_COUNT (affinity caller) =? 1); simpl; [|done].
  destruct (sched_getcpu caller <? 0); [done|].
  destruct (device_available (sched_getcpu caller)); simpl; [|done].
  by rewrite Hat.
Qed.

Lemma add_metric_Terminate_inv (caller : os_thread) (knob_name : string)
    (p : x86_adapt_plugin) :
  add_metric device_available caller knob_name p = Terminate ->
  CPU_COUNT (affinity caller) = 1 /\ 0 <= sched_getcpu caller /\
  device_available (sched_getcpu caller) = true /\
  is_Some (at_ knob_name (knobs_ p)) /\
  exists r, recorders_ p !! sched_getcpu caller = Some r /\ is_Some (thread_ r).
Proof.
  unfold_M. simpl.
  destruct (Z.eqb_spec (CPU_COUNT (affinity caller)) 1) as [Hpin|]; simpl; [|done].
  destruct (Z.ltb_spec (sched_getcpu caller) 0); [done|].
  destruct (device_available (sched_getcpu caller)); simpl; [|done].
  destruct (at_ knob_name (knobs_ p)) as [ci|]; simpl; [|done].
  rewrite gmap_emplace_lookup. unfold recorder_start.
  destruct (recorders_ p !! sched_getcpu caller) as [r|] eqn:Hr; simpl.
  - destruct (thread_ r) eqn:Ht; [|done]. intros _.
    repeat split; eauto.
  - done.
Qed.

(** X5. An activation ends the process exactly when it gets as far as
    start on a recorder that holds a thread: the caller is pinned, its CPU
    is known, the device opens, the name is in the metric table, and the
    recorder of the CPU has not been stopped since it was last started. *)
Theorem add_metric_terminates_iff (caller : os_thread) (knob_name : string)
    (p : x86_adapt_plugin) :
  add_metric device_available caller knob_name p = Terminate <->
  CPU_COUNT (affinity caller) = 1 /\ 0 <= sched_getcpu caller /\
  device_available (sched_getcpu caller) = true /\
  is_Some (at_ knob_name (knobs_ p)) /\
  exists r, recorders_ p !! sched_getcpu caller = Some r /\ is_Some (thread_ r).
Proof.
  split; [apply add_metric_Terminate_inv|].
  intros (Hpin & Hcpu & Hdev & [ci Hat] & r & Hr & Ht).
  by eapply add_metric_running.
Qed.

End Activation.


(** ** Harvests *)

Section Harvest.

Variable lookup : string -> option configuration_item.
Variable device_available : Z -> bool.
Variable sched_setaffinity_ok : cpu_set_t -> bool.
Variable measurement_clock_now : nat -> Z.
Variable device_read : device -> configuration_item -> nat -> Z.

Local Abbreviation thread_step' :=
  (thread_step sched_setaffinity_ok measurement_clock_now device_read).
Local Abbreviation step' :=
  (step lookup device_available sched_setaffinity_ok measurement_clock_now device_read).
Local Abbreviation run' :=
  (run lookup device_available sched_setaffinity_ok measurement_clock_now device_read).
Local Abbreviation reachable' :=
  (reachable lookup device_available sched_setaffinity_ok measurement_clock_now device_read).

Lemma recorder_stop_idem (r : recorder_thread) :
  recorder_stop (recorder_stop r) = recorder_stop r.
Proof.
  unfold recorder_stop. destruct (running_ r) eqn:E; simpl; [done|]. by rewrite E.
Qed.

Lemma get_all_values_step (id : Z) (sink entries : list (Z * Z))
    (p p1 : x86_adapt_plugin) :
  get_all_values id sink p = Ok entries p1 -> step' p p1.
Proof.
  intros H. apply get_all_values_Ok_inv in H as (o & r & Ho & Hr & _ & ->).
  eapply (step_ok _ _ _ _ _ _ _ (GetAllValues id)).
  unfold perform, bind, ret. by erewrite get_all_values_valid.
Qed.

(** X6. A harvest changes nothing but the recorder of the handle's CPU:
    the metric table, the handle table, the recorders of the other CPUs
    and the contents of every timeline are as before. *)
Theorem harvest_frame (id : Z) (sink entries : list (Z * Z))
    (p p' : x86_adapt_plugin) (o : oid) :
  get_all_values id sink p = Ok entries p' ->
  vector_index (recorded_knobs_ p) id = Some o ->
  knobs_ p' = knobs_ p /\ recorded_knobs_ p' = recorded_knobs_ p /\
  devices_opened p' = devices_opened p /\ clock_reads p' = clock_reads p /\
  (forall c, c ≠ cpu o -> recorders_ p' !! c = recorders_ p !! c) /\
  (forall c ci, timeline_of p' c ci = timeline_of p c ci).
Proof.
  intros H Ho. pose proof (fun c ci => get_all_values_timeline _ _ _ _ _ c ci H) as Htl.
  apply get_all_values_Ok_inv in H as (o' & r & Ho' & Hr & _ & ->).
  assert (o' = o) as -> by congruence.
  repeat split; try done.
  intros c Hne. simpl. by rewrite lookup_insert_ne.
Qed.

(** X7. Harvesting is idempotent on the plugin: a second harvest of the
    same handle, right after the first, delivers the same entries and
    leaves the plugin exactly as the first harvest left it. *)
Theorem harvest_twice_same_state (p : x86_adapt_plugin) (id : Z)
    (sink entries : list (Z * Z)) (p1 : x86_adapt_plugin) :
  reachable' p ->
  get_all_values id sink p = Ok entries p1 ->
  exists timeline,
    entries = sink ++ timeline /\
    forall sink', get_all_values id sink' p1 = Ok (sink' ++ timeline) p1.
Proof.
  intros Hp H. apply reachable_wf in Hp as [_ Hw].
  apply get_all_values_Ok_inv in H as (o & r & Ho & Hr & -> & ->).
  exists (timeline_of p (cpu o) (item o)). split; [done|]. intros sink'.
  erewrite get_all_values_valid; [|exact Ho|simpl; by rewrite lookup_insert_eq].
  rewrite timeline_of_read. f_equal.
  rewrite recorder_stop_idem.
  unfold set_values_, set_recorders_. simpl. f_equal.
  - by rewrite insert_insert_eq.
  - rewrite lookup_insert_eq. simpl. by rewrite !insert_insert_eq.
Qed.

(** X8. A harvest stops the sampling of every metric of the handle's CPU,
    not only of the handle's: until a metric is activated on that CPU
    again, whatever else is called and however often the threads step, the
    recorder of the CPU stays stopped and no timeline of the CPU gets a
    sample. *)
Theorem harvest_freezes_cpu (p : x86_adapt_plugin) (id : Z)
    (sink entries : list (Z * Z)) (p1 : x86_adapt_plugin) (o : oid)
    (cs : list call) (rs : list reply) (p2 : x86_adapt_plugin) :
  reachable' p ->
  get_all_values id sink p = Ok entries p1 ->
  vector_index (recorded_knobs_ p) id = Some o ->
  no_activation_on (cpu o) cs ->
  run' cs p1 = (rs, Alive p2) ->
  stopped_at (cpu o) p2 /\
  forall ci, timeline_of p2 (cpu o) ci = timeline_of p (cpu o) ci.
Proof.
  intros Hp H Ho Hno Hrun. apply reachable_wf in Hp.
  pose proof (fun c ci => get_all_values_timeline _ _ _ _ _ c ci H) as Htl.
  assert (plugin_wf p1) as Hwf1.
  { eapply (step_wf lookup device_available sched_setaffinity_ok
              measurement_clock_now device_read); [|exact Hp].
    by eapply get_all_values_step. }
  assert (stopped_at (cpu o) p1) as Hs1.
  { apply get_all_values_Ok_inv in H as (o' & r & Ho' & Hr & _ & ->).
    assert (o' = o) as -> by congruence.
    intros r'. simpl. rewrite lookup_insert_eq. intros [= <-].
    destruct Hp as [_ Hw]. by destruct (recorder_stop_stopped (cpu o) r (Hw _ _ Hr)). }
  destruct (run_stopped lookup device_available sched_setaffinity_ok
              measurement_clock_now device_read (cpu o) cs p1 rs p2) as [Hs2 Htl2];
    try done.
  split; [done|]. intros ci. by rewrite Htl2, Htl.
Qed.

Lemma step_cpu_nonneg (p p' : x86_adapt_plugin) :
  step' p p' ->
  (forall o, o ∈ recorded_knobs_ p -> 0 <= cpu o) ->
  forall o, o ∈ recorded_knobs_ p' -> 0 <= cpu o.
Proof.
  intros Hstep Hnn.
  apply (step_cases lookup device_available sched_setaffinity_ok
           measurement_clock_now device_read) in Hstep
    as [(k & ci' & _ & ->)|[->|[(c' & ->)|[(caller & k & h & H)|[(id & es & H)|(c' & ->)]]]]];
    try done.
  - apply add_metric_Ok in H as (ci' & _ & Hc & _ & _ & _ & _ & ->). simpl.
    intros o [Ho|Ho]%elem_of_app; [auto|].
    by apply list_elem_of_singleton in Ho as ->.
  - apply get_all_values_Ok_inv in H as (o' & r & _ & _ & _ & ->). done.
  - destruct (thread_step_knobs sched_setaffinity_ok measurement_clock_now device_read c' p)
      as (_ & -> & _). done.
Qed.

Lemma reachable_cpu_nonneg (p : x86_adapt_plugin) (o : oid) :
  reachable' p -> o ∈ recorded_knobs_ p -> 0 <= cpu o.
Proof.
  unfold reachable. intros H.
  assert (forall q q', rtc step' q q' ->
            (forall o, o ∈ recorded_knobs_ q -> 0 <= cpu o) ->
            forall o, o ∈ recorded_knobs_ q' -> 0 <= cpu o) as Hrtc.
  { induction 1; [done|]. intros. eapply IHrtc; [|done]. by eapply step_cpu_nonneg. }
  eapply Hrtc; [done|]. intros o' Ho'. by apply elem_of_nil in Ho'.
Qed.

Lemma vector_index_elem_of {A} (v : list A) (i : Z) (x : A) :
  vector_index v i = Some x -> x ∈ v.
Proof.
  unfold vector_index. destruct (_ <? _); [|done].
  intros H. by eapply list_elem_of_lookup_2.
Qed.

(** X9. After a harvest the CPU of the handle can be activated again: an
    activation of a declared metric by a pinned caller on that CPU, right
    after the harvest, returns a handle and leaves the recorder of the
    CPU running with a new thread at the entry of the loop. *)
Theorem harvest_then_activate_restarts (p : x86_adapt_plugin) (id : Z)
    (sink entries : list (Z * Z)) (p1 : x86_adapt_plugin) (o : oid)
    (caller : os_thread) (knob_name : string) :
  reachable' p ->
  get_all_values id sink p = Ok entries p1 ->
  vector_index (recorded_knobs_ p) id = Some o ->
  CPU_COUNT (affinity caller) = 1 ->
  sched_getcpu caller = cpu o ->
  device_available (cpu o) = true ->
  is_Some (at_ knob_name (knobs_ p)) ->
  exists p2 r t,
    add_metric device_available caller knob_name p1
      = Ok (static_cast_int (Z.of_nat (length (recorded_knobs_ p)))) p2 /\
    recorders_ p2 !! cpu o = Some r /\ running_ r = true /\ looping r = true /\
    thread_ r = Some t /\ th_pc t = LoopEntry /\ th_cpumask t = affinity caller.
Proof.
  intros Hp H Ho Hpin Hcpu Hdev [ci Hat].
  pose proof (reachable_cpu_nonneg p o Hp (vector_index_elem_of _ _ _ Ho)) as Hnn.
  apply reachable_wf in Hp as [_ Hw].
  apply get_all_values_Ok_inv in H as (o' & r & Ho' & Hr & _ & ->).
  assert (o' = o) as -> by congruence.
  destruct (recorder_stop_stopped (cpu o) r (Hw _ _ Hr)) as [_ Hth].
  rewrite <- Hcpu in *.
  set (p1 := set_values_ _ _).
  assert (thread_ (recorder_for (sched_getcpu caller) p1) = None) as Hfor.
  { unfold recorder_for, p1. simpl. by rewrite lookup_insert_eq. }
  pose proof (add_metric_stopped device_available caller knob_name p1 ci
                Hpin Hnn Hdev Hat Hfor) as Hadd.
  eexists _, _, _. split; [exact Hadd|].
  simpl. rewrite lookup_insert_eq. done.
Qed.

End Harvest.

(** ** The metric table *)

Lemma string_ltb_compare (a b : string) : String.ltb a b = true <-> String.compare a b = Lt.
Proof. unfold String.ltb. by destruct (String.compare a b). Qed.

Lemma string_ltb_irrefl (a : string) : String.ltb a a = false.
Proof.
  unfold String.ltb.
  assert (String.compare a a = Eq) as ->; [|done].
  induction a as [|c a IH]; simpl; [done|].
  unfold Ascii.compare. by rewrite N.compare_refl.
Qed.

Lemma string_ltb_total (a b : string) :
  a ≠ b -> String.ltb a b = false -> String.ltb b a = true.
Proof.
  intros Hne Hlt. apply string_ltb_compare. rewrite String.compare_antisym.
  unfold String.ltb in Hlt. destruct (String.compare a b) eqn:E; try done.
  by apply String.compare_eq_iff in E.
Qed.

Lemma string_ltb_le (a b : string) : String.ltb a b = true -> String.le a b.
Proof.
  intros H%string_ltb_compare. unfold String.le, String.leb. by rewrite H.
Qed.

Lemma string_ltb_trans (a b c : string) :
  String.ltb a b = true -> String.ltb b c = true -> String.ltb a c = true.
Proof.
  intros Hab Hbc.
  assert (String.le a c) as Hac.
  { etrans; by apply string_ltb_le. }
  apply string_ltb_compare. unfold String.le, String.leb in Hac.
  destruct (String.compare a c) eqn:E; try done.
  apply String.compare_eq_iff in E as ->.
  apply string_ltb_compare in Hab, Hbc. rewrite String.compare_antisym, Hbc in Hab.
  done.
Qed.

Lemma at_None (V : Type) (k : string) (m : list (string * V)) :
  at_ k m = None <-> Forall (fun e => e.1 ≠ k) m.
Proof.
  induction m as [|[k' v'] m IH]; simpl.
  - split; [constructor|done].
  - rewrite Forall_cons. simpl. destruct (String.eqb_spec k k') as [->|Hne].
    + split; [done|]. by intros [? _].
    + rewrite IH. split; [by auto|]. by intros [_ ?].
Qed.

Lemma elem_of_insert_in_order (V : Type) (k : string) (v : V) (m : list (string * V))
    (e : string * V) :
  e ∈ insert_in_order k v m <-> e = (k, v) \/ e ∈ m.
Proof.
  induction m as [|[k' v'] m IH]; simpl.
  - rewrite list_elem_of_singleton, elem_of_nil. tauto.
  - destruct (String.ltb k k').
    + by rewrite elem_of_cons.
    + rewrite !elem_of_cons, IH. tauto.
Qed.

Lemma elem_of_emplace (V : Type) (k : string) (v : V) (m : list (string * V))
    (e : string * V) :
  e ∈ m -> e ∈ emplace k v m.
Proof.
  unfold emplace. destruct (at_ k m); [done|].
  intros H. apply elem_of_insert_in_order. by right.
Qed.

Lemma insert_in_order_sorted (k : string) (v : configuration_item)
    (m : list (string * configuration_item)) :
  at_ k m = None -> StronglySorted knob_lt m ->
  StronglySorted knob_lt (insert_in_order k v m).
Proof.
  induction m as [|[k' v'] m IH]; simpl.
  - intros _ _. by repeat constructor.
  - destruct (String.eqb_spec k k') as [|Hne]; [done|]. intros Hat.
    rewrite StronglySorted_cons. intros [Hall Hs].
    destruct (String.ltb k k') eqn:Hlt.
    + rewrite !StronglySorted_cons, Forall_cons. repeat split; try done.
      eapply Forall_impl; [exact Hall|]. intros e He. unfold knob_lt in *. simpl in *.
      by eapply string_ltb_trans.
    + rewrite StronglySorted_cons. split; [|by apply IH].
      apply Forall_forall. intros e [->|He]%elem_of_insert_in_order.
      * unfold knob_lt. simpl. by apply string_ltb_total.
      * by eapply Forall_forall in Hall.
Qed.

Lemma emplace_sorted (k : string) (v : configuration_item)
    (m : list (string * configuration_item)) :
  StronglySorted knob_lt m -> StronglySorted knob_lt (emplace k v m).
Proof.
  unfold emplace. destruct (at_ k m) eqn:E; [done|]. by apply insert_in_order_sorted.
Qed.

Lemma sorted_at (m : list (string * configuration_item)) (k : string)
    (ci : configuration_item) :
  StronglySorted knob_lt m -> (k, ci) ∈ m -> at_ k m = Some ci.
Proof.
  induction m as [|[k' v'] m IH]; simpl.
  - intros _ H. by apply elem_of_nil in H.
  - rewrite StronglySorted_cons. intros [Hall Hs] [[= -> ->]|He]%elem_of_cons.
    + by rewrite String.eqb_refl.
    + destruct (String.eqb_spec k k') as [->|Hne]; [|by apply IH].
      eapply Forall_forall in Hall; [|exact He]. unfold knob_lt in Hall. simpl in Hall.
      by rewrite string_ltb_irrefl in Hall.
Qed.

Lemma sorted_keys_NoDup (m : list (string * configuration_item)) :
  StronglySorted knob_lt m -> NoDup m.*1.
Proof.
  induction m as [|[k v] m IH]; simpl; [constructor|].
  rewrite StronglySorted_cons. intros [Hall Hs]. constructor; [|by apply IH].
  intros [[k' v'] [Hk He]]%list_elem_of_fmap. simpl in Hk. subst k'.
  eapply Forall_forall in Hall; [|exact He]. unfold knob_lt in Hall. simpl in Hall.
  by rewrite string_ltb_irrefl in Hall.
Qed.

Section Tables.

Variable lookup : string -> option configuration_item.
Variable device_available : Z -> bool.
Variable sched_setaffinity_ok : cpu_set_t -> bool.
Variable measurement_clock_now : nat -> Z.
Variable device_read : device -> configuration_item -> nat -> Z.

Local Abbreviation loop_body' := (loop_body measurement_clock_now device_read).
Local Abbreviation thread_step' :=
  (thread_step sched_setaffinity_ok measurement_clock_now device_read).
Local Abbreviation step' :=
  (step lookup device_available sched_setaffinity_ok measurement_clock_now device_read).
Local Abbreviation run' :=
  (run lookup device_available sched_setaffinity_ok measurement_clock_now device_read).
Local Abbreviation reachable' :=
  (reachable lookup device_available sched_setaffinity_ok measurement_clock_now device_read).
Local Abbreviation step_cases' :=
  (step_cases lookup device_available sched_setaffinity_ok measurement_clock_now
     device_read).
Local Abbreviation thread_step_cases' :=
  (thread_step_cases sched_setaffinity_ok measurement_clock_now device_read).
Local Abbreviation thread_step_knobs' :=
  (thread_step_knobs sched_setaffinity_ok measurement_clock_now device_read).

(** An invariant of the steps holds in every reachable state. *)
Lemma reachable_ind (P : x86_adapt_plugin -> Prop) :
  P plugin_init ->
  (forall p p', plugin_wf p -> P p -> step' p p' -> P p') ->
  forall p, reachable' p -> P p.
Proof.
  intros Hinit Hstep p Hp.
  assert (forall q q', rtc step' q q' -> plugin_wf q -> P q -> plugin_wf q' /\ P q')
    as Hrtc.
  { induction 1 as [|q q1 q2 Hs _ IH]; [done|]. intros Hwf HP. apply IH.
    - by eapply step_wf.
    - by eapply Hstep. }
  by destruct (Hrtc _ _ Hp plugin_wf_init Hinit).
Qed.

Lemma step_knobs (p p' : x86_adapt_plugin) :
  step' p p' ->
  knobs_ p' = knobs_ p \/
  exists k ci, lookup k = Some ci /\ knobs_ p' = emplace k ci (knobs_ p).
Proof.
  intros Hstep.
  apply step_cases' in Hstep
    as [(k & ci' & Hl & ->)|[->|[(c' & ->)|[(caller & k & h & H)|[(id & es & H)|(c' & ->)]]]]];
    eauto.
  - apply add_metric_Ok in H as (ci' & _ & _ & _ & _ & _ & _ & ->). by left.
  - apply get_all_values_Ok_inv in H as (o' & r & _ & _ & _ & ->). by left.
  - left. by destruct (thread_step_knobs' c' p) as (-> & _).
Qed.

Lemma reachable_knobs_sorted (p : x86_adapt_plugin) :
  reachable' p -> StronglySorted knob_lt (knobs_ p).
Proof.
  apply (reachable_ind (fun p => StronglySorted knob_lt (knobs_ p))).
  - constructor.
  - intros p0 p' _ Hs [->|(k & ci & _ & ->)]%step_knobs; [done|].
    by apply emplace_sorted.
Qed.

(** X10. The metric table is kept in the strict order of its keys, so a
    declared name has one entry and the loop visits the declared metrics
    in the order of their names. An entry is what the catalogue answered
    for its name, and [knobs_.at] finds it. *)
Theorem metric_table_sorted (p : x86_adapt_plugin) :
  reachable' p ->
  StronglySorted knob_lt (knobs_ p) /\ NoDup (knobs_ p).*1 /\
  forall k ci, (k, ci) ∈ knobs_ p -> at_ k (knobs_ p) = Some ci /\ lookup k = Some ci.
Proof.
  intros Hp. pose proof (reachable_knobs_sorted p Hp) as Hs.
  split; [done|]. split; [by apply sorted_keys_NoDup|].
  intros k ci Hin. pose proof (sorted_at _ _ _ Hs Hin) as Hat.
  split; [done|]. by apply (reachable_knobs_consistent _ _ _ _ _ _ Hp).
Qed.

(** ** What is recorded, and where *)

Lemma step_knobs_elem (p p' : x86_adapt_plugin) (e : string * configuration_item) :
  step' p p' -> e ∈ knobs_ p -> e ∈ knobs_ p'.
Proof.
  intros [->|(k & ci & _ & ->)]%step_knobs He; [done|]. by apply elem_of_emplace.
Qed.

Lemma bindings_of_pos (ci : configuration_item) (cis : list (string * configuration_item)) :
  (0 < bindings_of ci cis)%nat -> exists k, (k, ci) ∈ cis.
Proof.
  unfold bindings_of. intros Hpos.
  destruct (filter (fun e => e.2 = ci) cis) as [|[k ci'] l] eqn:E; [simpl in Hpos; lia|].
  assert ((k, ci') ∈ filter (fun e => e.2 = ci) cis) as He by (rewrite E; by left).
  apply list_elem_of_filter in He as [Heq He]. simpl in Heq. subst ci'. eauto.
Qed.

Lemma step_sampled_declared (p p' : x86_adapt_plugin) :
  step' p p' ->
  (forall c ci, timeline_of p c ci ≠ [] -> exists k, (k, ci) ∈ knobs_ p) ->
  forall c ci, timeline_of p' c ci ≠ [] -> exists k, (k, ci) ∈ knobs_ p'.
Proof.
  intros Hstep Hinv c ci Hne.
  assert (timeline_of p c ci ≠ [] \/ exists k, (k, ci) ∈ knobs_ p) as [Hold|[k Hk]].
  { apply step_cases' in Hstep
      as [(k & ci' & Hl & ->)|[->|[(c' & ->)|[(caller & k & h & H)|[(id & es & H)|(c' & ->)]]]]];
      try (by left).
    - left. by rewrite <- (add_metric_timeline _ _ _ _ _ _ c ci H).
    - left. by rewrite <- (get_all_values_timeline _ _ _ _ _ c ci H).
    - destruct (thread_step_cases' c' p)
        as [Heq|[(r & t & _ & _ & _ & Heq)|(r & t & _ & _ & _ & _ & Heq)]];
        rewrite Heq in Hne; try (by left).
      unfold timeline_of in Hne at 1. simpl in Hne.
      destruct (decide (th_timelines t = c)) as [<-|Hc].
      + rewrite lookup_insert_eq in Hne. simpl in Hne.
        destruct (loop_body_timeline measurement_clock_now device_read (device_ r)
                    (knobs_ p) (default ∅ (values_ p !! th_timelines t))
                    (clock_reads p) ci) as (extra & Hx & Hlen).
        rewrite Hx in Hne. destruct extra as [|s extra].
        * left. by rewrite app_nil_r in Hne.
        * right. apply bindings_of_pos. rewrite <- Hlen. simpl. lia.
      + left. by rewrite lookup_insert_ne in Hne. }
  - destruct (Hinv c ci Hold) as [k Hk]. exists k. by eapply step_knobs_elem.
  - exists k. by eapply step_knobs_elem.
Qed.

(** X11. Only declared metrics are ever sampled: an item that has a sample
    in some timeline is the item of an entry of the metric table, under a
    name for which the catalogue answers that item. *)
Theorem samples_only_of_declared_items (p : x86_adapt_plugin) (c : Z)
    (ci : configuration_item) :
  reachable' p ->
  timeline_of p c ci ≠ [] ->
  exists k, (k, ci) ∈ knobs_ p /\ at_ k (knobs_ p) = Some ci /\ lookup k = Some ci.
Proof.
  intros Hp Hne.
  assert (forall c ci, timeline_of p c ci ≠ [] -> exists k, (k, ci) ∈ knobs_ p) as Hinv.
  { clear Hne. revert p Hp.
    apply (reachable_ind
             (fun p => forall c ci, timeline_of p c ci ≠ [] -> exists k, (k, ci) ∈ knobs_ p)).
    - intros c' ci'. unfold timeline_of. simpl. by rewrite lookup_empty.
    - intros p0 p' _ Hinv Hstep. by eapply step_sampled_declared. }
  destruct (Hinv c ci Hne) as [k Hk]. exists k. split; [done|].
  pose proof (sorted_at _ _ _ (reachable_knobs_sorted p Hp) Hk) as Hat.
  split; [done|]. by apply (reachable_knobs_consistent _ _ _ _ _ _ Hp).
Qed.

Lemma handles_on_pos (c : Z) (p : x86_adapt_plugin) :
  (0 < handles_on c p)%nat <-> exists o, o ∈ recorded_knobs_ p /\ cpu o = c.
Proof.
  unfold handles_on. split.
  - intros Hpos.
    destruct (filter (fun o => cpu o = c) (recorded_knobs_ p)) as [|o l] eqn:E;
      [simpl in Hpos; lia|].
    assert (o ∈ filter (fun o => cpu o = c) (recorded_knobs_ p)) as Ho
      by (rewrite E; by left).
    apply list_elem_of_filter in Ho as [Hc Ho]. eauto.
  - intros (o & Ho & Hc).
    assert (o ∈ filter (fun o => cpu o = c) (recorded_knobs_ p)) as Hf
      by (by apply list_elem_of_filter).
    destruct (filter _ _); [by apply elem_of_nil in Hf|simpl; lia].
Qed.

Lemma step_recorders_activated (p p' : x86_adapt_plugin) :
  plugin_wf p -> step' p p' ->
  (forall c, is_Some (recorders_ p !! c) -> (0 < handles_on c p)%nat) ->
  forall c, is_Some (recorders_ p' !! c) -> (0 < handles_on c p')%nat.
Proof.
  intros [_ Hw] Hstep Hinv c.
  apply step_cases' in Hstep
    as [(k & ci' & Hl & ->)|[->|[(c' & ->)|[(caller & k & h & H)|[(id & es & H)|(c' & ->)]]]]];
    try (by apply Hinv).
  - apply add_metric_Ok in H as (ci' & _ & _ & _ & _ & _ & _ & ->). simpl.
    unfold handles_on. simpl. rewrite handles_on_app. simpl.
    destruct (decide (sched_getcpu caller = c)) as [->|Hne].
    + intros _. lia.
    + rewrite lookup_insert_ne by done. intros Hc. specialize (Hinv c Hc). lia.
  - apply get_all_values_Ok_inv in H as (o & r & _ & Hr & _ & ->). simpl.
    unfold handles_on. simpl. fold (handles_on c p).
    destruct (decide (cpu o = c)) as [<-|Hne].
    + intros _. apply Hinv. eauto.
    + rewrite lookup_insert_ne by done. apply Hinv.
  - unfold handles_on. destruct (thread_step_knobs' c' p) as (_ & -> & _).
    fold (handles_on c p).
    destruct (thread_step_cases' c' p)
      as [->|[(r & t & Hr & _ & _ & ->)|(r & t & _ & _ & _ & _ & ->)]];
      try (by apply Hinv).
    simpl. destruct (decide (c' = c)) as [<-|Hne].
    + intros _. apply Hinv. eauto.
    + rewrite lookup_insert_ne by done. apply Hinv.
Qed.

Lemma step_sampled_recorder (p p' : x86_adapt_plugin) :
  plugin_wf p -> step' p p' ->
  (forall c ci, timeline_of p c ci ≠ [] -> is_Some (recorders_ p !! c)) ->
  forall c ci, timeline_of p' c ci ≠ [] -> is_Some (recorders_ p' !! c).
Proof.
  intros [_ Hw] Hstep Hinv c ci.
  apply step_cases' in Hstep
    as [(k & ci' & Hl & ->)|[->|[(c' & ->)|[(caller & k & h & H)|[(id & es & H)|(c' & ->)]]]]];
    try (by apply Hinv).
  - rewrite (add_metric_timeline _ _ _ _ _ _ c ci H). intros Hne%Hinv.
    apply add_metric_Ok in H as (ci' & _ & _ & _ & _ & _ & _ & ->). simpl.
    rewrite lookup_insert_is_Some. destruct (decide (sched_getcpu caller = c)); auto.
  - rewrite (get_all_values_timeline _ _ _ _ _ c ci H). intros Hne%Hinv.
    apply get_all_values_Ok_inv in H as (o & r & _ & Hr & _ & ->). simpl.
    rewrite lookup_insert_is_Some. destruct (decide (cpu o = c)); auto.
  - destruct (thread_step_cases' c' p)
      as [->|[(r & t & Hr & _ & _ & ->)|(r & t & Hr & Ht & _ & _ & ->)]];
      try (by apply Hinv).
    + intros Hne. assert (is_Some (recorders_ p !! c)) as Hc by (by eapply Hinv).
      simpl. rewrite lookup_insert_is_Some. destruct (decide (c' = c)); auto.
    + destruct (Hw c' r Hr) as [_ Hwt]. rewrite Ht in Hwt. destruct Hwt as (_ & _ & Htl).
      unfold timeline_of at 1. simpl. rewrite Htl.
      destruct (decide (c' = c)) as [<-|Hne]; [eauto|].
      rewrite lookup_insert_ne by done. apply Hinv.
Qed.

(** X12. The plugin has a recorder for exactly the CPUs that have a
    handle, and only the timelines of such a CPU hold samples: nothing is
    ever recorded for a CPU on which no metric was activated. *)
Theorem samples_only_where_activated (p : x86_adapt_plugin) (c : Z) :
  reachable' p ->
  (is_Some (recorders_ p !! c) <-> (0 < handles_on c p)%nat) /\
  (forall ci, timeline_of p c ci ≠ [] -> (0 < handles_on c p)%nat).
Proof.
  intros Hp.
  assert (forall c, is_Some (recorders_ p !! c) -> (0 < handles_on c p)%nat) as Hrec.
  { revert p Hp.
    apply (reachable_ind
             (fun p => forall c, is_Some (recorders_ p !! c) -> (0 < handles_on c p)%nat)).
    - intros c' [r Hr]. simpl in Hr. by rewrite lookup_empty in Hr.
    - intros p0 p' Hwf Hinv Hstep. by eapply step_recorders_activated. }
  assert (forall c ci, timeline_of p c ci ≠ [] -> is_Some (recorders_ p !! c)) as Htl.
  { clear Hrec. revert p Hp.
    apply (reachable_ind
             (fun p => forall c ci, timeline_of p c ci ≠ [] -> is_Some (recorders_ p !! c))).
    - intros c' ci'. unfold timeline_of. simpl. by rewrite lookup_empty.
    - intros p0 p' Hwf Hinv Hstep. by eapply step_sampled_recorder. }
  split; [split; [apply Hrec|]|].
  - intros (o & Ho & <-)%handles_on_pos.
    apply reachable_wf in Hp as [Hwf _]. by apply Hwf.
  - intros ci Hne. apply Hrec. by eapply Htl.
Qed.

(** ** The order of the samples *)

Lemma stamped_weaken (n n' : nat) (tl : list (Z * Z)) :
  (n <= n')%nat -> stamped measurement_clock_now n tl -> stamped measurement_clock_now n' tl.
Proof.
  intros Hle (ks & Hks & Hs & Hall). exists ks. split; [done|]. split; [done|].
  eapply Forall_impl; [exact Hall|]. simpl. lia.
Qed.

Lemma stamped_snoc (n : nat) (tl : list (Z * Z)) (v : Z) :
  stamped measurement_clock_now n tl ->
  stamped measurement_clock_now (S n) (tl ++ [(measurement_clock_now n, v)]).
Proof.
  intros (ks & Hks & Hs & Hall). exists (ks ++ [n]). split; [|split].
  - by rewrite !fmap_app, Hks.
  - apply StronglySorted_app. split; [|split; [done|]].
    + intros x y Hx ->%list_elem_of_singleton.
      eapply Forall_forall in Hall; [|exact Hx]. exact Hall.
    + repeat constructor.
  - apply Forall_app. split.
    + eapply Forall_impl; [exact Hall|]. simpl. lia.
    + repeat constructor.
Qed.

Lemma loop_body_stamped (dev : device) (cis : list (string * configuration_item))
    (tl : timeline_map) (n : nat) :
  (forall ci, stamped measurement_clock_now n (default [] (tl !! ci))) ->
  forall ci, stamped measurement_clock_now (n + length cis)
               (default [] ((loop_body' dev cis (tl, n)).1 !! ci)).
Proof.
  revert tl n. induction cis as [|e cis IH]; intros tl n Hinv ci.
  - simpl. eapply stamped_weaken; [|apply Hinv]. lia.
  - unfold loop_body. simpl.
    replace (n + S (length cis))%nat with (S n + length cis)%nat by lia.
    apply (IH (<[e.2 := default [] (tl !! e.2)
                   ++ [(measurement_clock_now n, device_read dev e.2 n)]]> tl) (S n)).
    intros ci'. destruct (decide (e.2 = ci')) as [<-|Hne].
    + rewrite lookup_insert_eq. simpl. by apply stamped_snoc.
    + rewrite lookup_insert_ne by done. eapply stamped_weaken; [|apply Hinv]. lia.
Qed.

Lemma step_stamped (p p' : x86_adapt_plugin) :
  step' p p' ->
  (forall c ci, stamped measurement_clock_now (clock_reads p) (timeline_of p c ci)) ->
  forall c ci, stamped measurement_clock_now (clock_reads p') (timeline_of p' c ci).
Proof.
  intros Hstep Hinv c ci.
  apply step_cases' in Hstep
    as [(k & ci' & Hl & ->)|[->|[(c' & ->)|[(caller & k & h & H)|[(id & es & H)|(c' & ->)]]]]];
    try (by apply Hinv).
  - rewrite (add_metric_timeline _ _ _ _ _ _ c ci H).
    apply add_metric_Ok in H as (ci' & _ & _ & _ & _ & _ & _ & ->). apply Hinv.
  - rewrite (get_all_values_timeline _ _ _ _ _ c ci H).
    apply get_all_values_Ok_inv in H as (o & r & _ & Hr & _ & ->). apply Hinv.
  - destruct (thread_step_cases' c' p)
      as [->|[(r & t & Hr & _ & _ & ->)|(r & t & Hr & Ht & _ & _ & ->)]];
      try (by apply Hinv).
    unfold timeline_of. simpl. destruct (decide (th_timelines t = c)) as [<-|Hne].
    + rewrite lookup_insert_eq. simpl. apply loop_body_stamped.
      intros ci'. apply (Hinv (th_timelines t) ci').
    + rewrite lookup_insert_ne by done.
      eapply stamped_weaken; [|apply (Hinv c ci)]. lia.
Qed.

Lemma reachable_stamped (p : x86_adapt_plugin) (c : Z) (ci : configuration_item) :
  reachable' p -> stamped measurement_clock_now (clock_reads p) (timeline_of p c ci).
Proof.
  intros Hp. revert p Hp c ci.
  apply (reachable_ind
           (fun p => forall c ci,
                stamped measurement_clock_now (clock_reads p) (timeline_of p c ci))).
  - intros c ci. exists []. unfold timeline_of. simpl. rewrite lookup_empty. simpl.
    split; [done|]. split; constructor.
  - intros p0 p' _ Hinv Hstep. by eapply step_stamped.
Qed.

Lemma stamped_sorted (n : nat) (tl : list (Z * Z)) :
  clock_monotone measurement_clock_now ->
  stamped measurement_clock_now n tl -> StronglySorted Z.le tl.*1.
Proof.
  intros Hmono (ks & -> & Hs & _). clear tl.
  induction Hs as [|k ks Hs IH Hall]; simpl; constructor; [done|].
  apply Forall_fmap. eapply Forall_impl; [exact Hall|]. simpl.
  intros k' Hlt. apply Hmono. unfold Nat.lt in Hlt. lia.
Qed.

(** X13. With a clock that never goes back, every timeline is in the order
    of its time stamps, and so is what a harvest writes to an empty
    cursor. *)
Theorem timelines_sorted_by_time (p : x86_adapt_plugin) :
  clock_monotone measurement_clock_now ->
  reachable' p ->
  (forall c ci, StronglySorted Z.le (timeline_of p c ci).*1) /\
  (forall id entries p',
      get_all_values id [] p = Ok entries p' -> StronglySorted Z.le entries.*1).
Proof.
  intros Hmono Hp.
  assert (forall c ci, StronglySorted Z.le (timeline_of p c ci).*1) as Hs.
  { intros c ci. eapply stamped_sorted; [done|]. by apply reachable_stamped. }
  split; [done|]. intros id entries p' H.
  apply get_all_values_Ok_inv in H as (o & r & _ & _ & -> & _). apply Hs.
Qed.

(** ** The masks of the recorder threads *)

Lemma step_thread_masks (p p' : x86_adapt_plugin) :
  step' p p' ->
  (forall c r t, recorders_ p !! c = Some r -> thread_ r = Some t ->
     CPU_COUNT (th_cpumask t) = 1 /\
     (th_bound t = None \/ th_bound t = Some (th_cpumask t)) /\
     (th_pc t = LoopEntry -> th_bound t = None)) ->
  forall c r t, recorders_ p' !! c = Some r -> thread_ r = Some t ->
    CPU_COUNT (th_cpumask t) = 1 /\
    (th_bound t = None \/ th_bound t = Some (th_cpumask t)) /\
    (th_pc t = LoopEntry -> th_bound t = None).
Proof.
  intros Hstep Hinv c r t.
  apply step_cases' in Hstep
    as [(k & ci' & Hl & ->)|[->|[(c' & ->)|[(caller & k & h & H)|[(id & es & H)|(c' & ->)]]]]];
    try (by apply Hinv).
  - apply add_metric_Ok in H as (ci' & Hpin & _ & _ & _ & _ & _ & ->). simpl.
    destruct (decide (sched_getcpu caller = c)) as [<-|Hne].
    + rewrite lookup_insert_eq. intros [= <-]. simpl. intros [= <-]. simpl. auto.
    + rewrite lookup_insert_ne by done. apply Hinv.
  - apply get_all_values_Ok_inv in H as (o & r0 & _ & Hr & _ & ->). simpl.
    destruct (decide (cpu o = c)) as [<-|Hne].
    + rewrite lookup_insert_eq. intros [= <-]. unfold recorder_stop.
      destruct (running_ r0); simpl; [done|]. intros Ht0. by eapply (Hinv (cpu o) r0).
    + rewrite lookup_insert_ne by done. apply Hinv.
  - destruct (thread_step_cases' c' p)
      as [->|[(r0 & t0 & Hr & Ht & Hpc & ->)|(r0 & t0 & Hr & Ht & _ & _ & ->)]];
      try (by apply Hinv).
    simpl. destruct (decide (c' = c)) as [<-|Hne].
    + rewrite lookup_insert_eq. intros [= <-]. simpl. intros [= <-]. simpl.
      destruct (Hinv c' r0 t0 Hr Ht) as (Hone & Hb & Hentry).
      split; [done|]. split; [|done].
      destruct (sched_setaffinity_ok (th_cpumask t0)); [by right|].
      left. by apply Hentry.
    + rewrite lookup_insert_ne by done. apply Hinv.
Qed.

(** X14. Every recorder thread was spawned with the mask of a pinned
    caller: its mask holds one CPU. Before it has entered the loop it is
    bound to nothing, and afterwards to nothing or to that mask. *)
Theorem recorder_threads_have_one_cpu (p : x86_adapt_plugin) (c : Z)
    (r : recorder_thread) (t : thread) :
  reachable' p ->
  recorders_ p !! c = Some r -> thread_ r = Some t ->
  CPU_COUNT (th_cpumask t) = 1 /\
  (th_bound t = None \/ th_bound t = Some (th_cpumask t)) /\
  (th_pc t = LoopEntry -> th_bound t = None).
Proof.
  intros Hp. revert p Hp c r t.
  apply (reachable_ind
           (fun p => forall c r t, recorders_ p !! c = Some r -> thread_ r = Some t ->
              CPU_COUNT (th_cpumask t) = 1 /\
              (th_bound t = None \/ th_bound t = Some (th_cpumask t)) /\
              (th_pc t = LoopEntry -> th_bound t = None))).
  - intros c r t Hr. simpl in Hr. by rewrite lookup_empty in Hr.
  - intros p0 p' _ Hinv Hstep. by eapply step_thread_masks.
Qed.

(** ** Nothing is ever removed *)

Lemma step_grows (p p' : x86_adapt_plugin) :
  step' p p' ->
  devices_opened p `prefix_of` devices_opened p' /\
  (clock_reads p <= clock_reads p')%nat /\
  forall k ci, at_ k (knobs_ p) = Some ci -> at_ k (knobs_ p') = Some ci.
Proof.
  intros Hstep.
  apply step_cases' in Hstep
    as [(k & ci' & Hl & ->)|[->|[(c' & ->)|[(caller & k & h & H)|[(id & es & H)|(c' & ->)]]]]];
    try done.
  - split; [done|]. split; [done|]. intros k0 ci Hat. simpl.
    destruct (decide (k = k0)) as [<-|Hne].
    + by rewrite at_emplace, Hat.
    + by rewrite at_emplace_ne.
  - simpl. split; [by eexists|]. done.
  - apply add_metric_Ok in H as (ci' & _ & _ & _ & _ & _ & _ & ->). simpl.
    split; [by eexists|]. done.
  - apply get_all_values_Ok_inv in H as (o & r0 & _ & Hr & _ & ->). done.
  - destruct (thread_step_cases' c' p)
      as [->|[(r0 & t0 & _ & _ & _ & ->)|(r0 & t0 & _ & _ & _ & _ & ->)]];
      try done.
    simpl. split; [done|]. split; [lia|done].
Qed.

(** X15. No call and no step of a thread removes or rewrites anything that
    was recorded: over any run that the process survives, every timeline,
    the handle table and the list of opened devices are extended at their
    end only, the clock reads are not undone, and a name of the metric
    table stays bound to the item it was bound to. *)
Theorem nothing_is_ever_removed (cs : list call) (p : x86_adapt_plugin)
    (rs : list reply) (p' : x86_adapt_plugin) :
  run' cs p = (rs, Alive p') ->
  (forall c ci, timeline_of p c ci `prefix_of` timeline_of p' c ci) /\
  recorded_knobs_ p `prefix_of` recorded_knobs_ p' /\
  devices_opened p `prefix_of` devices_opened p' /\
  (clock_reads p <= clock_reads p')%nat /\
  (forall k ci, at_ k (knobs_ p) = Some ci -> at_ k (knobs_ p') = Some ci).
Proof.
  intros Hrun%run_steps.
  split; [intros c ci; by eapply rtc_step_timeline|].
  split; [by eapply rtc_step_recorded_knobs|].
  induction Hrun as [|q q1 q2 Hs _ IH]; [done|].
  destruct (step_grows _ _ Hs) as (Hd & Hc & Hk). destruct IH as (Hd' & Hc' & Hk').
  split; [by etrans|]. split; [lia|]. auto.
Qed.

End Tables.

(** ** Where the samples come from *)

Section Samples.

Variable lookup : string -> option configuration_item.
Variable device_available : Z -> bool.
Variable sched_setaffinity_ok : cpu_set_t -> bool.
Variable measurement_clock_now : nat -> Z.
Variable device_read : device -> configuration_item -> nat -> Z.

Local Abbreviation loop_body' := (loop_body measurement_clock_now device_read).
Local Abbreviation perform' :=
  (perform lookup device_available sched_setaffinity_ok measurement_clock_now device_read).
Local Abbreviation step' :=
  (step lookup device_available sched_setaffinity_ok measurement_clock_now device_read).
Local Abbreviation run' :=
  (run lookup device_available sched_setaffinity_ok measurement_clock_now device_read).
Local Abbreviation reachable' :=
  (reachable lookup device_available sched_setaffinity_ok measurement_clock_now device_read).

Lemma loop_body_samples (dev : device) (cis : list (string * configuration_item))
    (tl : timeline_map) (n : nat) (ci : configuration_item) (s : Z * Z) :
  s ∈ default [] ((loop_body' dev cis (tl, n)).1 !! ci) ->
  s ∈ default [] (tl !! ci) \/
  exists k, s = (measurement_clock_now k, device_read dev ci k).
Proof.
  revert tl n. induction cis as [|e cis IH]; intros tl n; [by left|].
  unfold loop_body. simpl. intros [Hs|Hs]%IH; [|by right].
  destruct (decide (e.2 = ci)) as [<-|Hne].
  - rewrite lookup_insert_eq in Hs. simpl in Hs.
    apply elem_of_app in Hs as [Hs|Hs]; [by left|].
    apply list_elem_of_singleton in Hs as ->. right. eauto.
  - rewrite lookup_insert_ne in Hs by done. by left.
Qed.

Lemma step_samples_source (p p' : x86_adapt_plugin) :
  plugin_wf p -> step' p p' ->
  (forall c ci s, s ∈ timeline_of p c ci ->
     exists d k, dev_id d = c /\ s = (measurement_clock_now k, device_read d ci k)) ->
  forall c ci s, s ∈ timeline_of p' c ci ->
    exists d k, dev_id d = c /\ s = (measurement_clock_now k, device_read d ci k).
Proof.
  intros [_ Hw] Hstep Hinv c ci s.
  apply (step_cases lookup device_available sched_setaffinity_ok
           measurement_clock_now device_read) in Hstep
    as [(k & ci' & Hl & ->)|[->|[(c' & ->)|[(caller & k & h & H)|[(id & es & H)|(c' & ->)]]]]];
    try (by apply Hinv).
  - rewrite (add_metric_timeline _ _ _ _ _ _ c ci H). apply Hinv.
  - rewrite (get_all_values_timeline _ _ _ _ _ c ci H). apply Hinv.
  - destruct (thread_step_cases sched_setaffinity_ok measurement_clock_now device_read c' p)
      as [->|[(r & t & Hr & _ & _ & ->)|(r & t & Hr & Ht & _ & _ & ->)]];
      try (by apply Hinv).
    destruct (Hw c' r Hr) as [Hdev Hwt]. rewrite Ht in Hwt. destruct Hwt as (_ & _ & Htl).
    unfold timeline_of at 1. simpl. rewrite Htl.
    destruct (decide (c' = c)) as [<-|Hne].
    + rewrite lookup_insert_eq. simpl. intros [Hs|[k ->]]%loop_body_samples.
      * by apply Hinv.
      * exists (device_ r), k. done.
    + rewrite lookup_insert_ne by done. apply Hinv.
Qed.

(** X16. Every sample filed under a CPU and an item is a reading of that
    item through a device of that CPU, paired with a reading of the clock
    taken for that sample: no timeline holds a value of another CPU's
    device or of another item. *)
Theorem samples_come_from_their_cpu (p : x86_adapt_plugin) (c : Z)
    (ci : configuration_item) (s : Z * Z) :
  reachable' p ->
  s ∈ timeline_of p c ci ->
  exists d k, dev_id d = c /\ s = (measurement_clock_now k, device_read d ci k).
Proof.
  intros Hp. revert p Hp c ci s.
  apply (reachable_ind lookup device_available sched_setaffinity_ok
           measurement_clock_now device_read
           (fun p => forall c ci s, s ∈ timeline_of p c ci ->
              exists d k, dev_id d = c /\
                          s = (measurement_clock_now k, device_read d ci k))).
  - intros c ci s. unfold timeline_of. simpl. rewrite lookup_empty. simpl.
    intros Hs. by apply elem_of_nil in Hs.
  - intros p0 p' Hwf Hinv Hstep. by eapply step_samples_source.
Qed.

End Samples.

(** * The further properties on the test bench *)

(** A pinned thread for which [sched_getcpu] fails. *)
Lemma add_metric_getcpu_failure_witness :
  let caller := {| affinity := {[ 3%nat ]}; sched_getcpu := -1 |} in
  CPU_COUNT (affinity caller) = 1 /\ sched_getcpu caller < 0 /\
  add_metric bench_device_available caller "freq" plugin_init
    = Raise GetCpuFailed plugin_init.
Proof.
  intros caller.
  assert (CPU_COUNT (affinity caller) = 1) as Hpin by (vm_compute; reflexivity).
  assert (sched_getcpu caller < 0) as Hcpu by (simpl; lia).
  split; [exact Hpin|]. split; [exact Hcpu|].
  exact (add_metric_getcpu_failure bench_device_available caller "freq" plugin_init
           Hpin Hcpu).
Defined.

(** While the recorder of CPU 3 is running with a sample of "freq", a
    thread pinned to CPU 5 asks for "volt", which was not declared. *)
Lemma failed_activation_changes_nothing_witness :
  let p := bench_state true
             [GetMetricProperties "freq"; AddMetric (pinned_to 3) "freq";
              ThreadStep 3; ThreadStep 3] in
  let p' := after (add_metric bench_device_available (pinned_to 5) "volt" p) in
  add_metric bench_device_available (pinned_to 5) "volt" p = Raise OutOfRange p' /\
  timeline_of p 3 freq = [(0, 100)] /\
  knobs_ p' = knobs_ p /\ recorded_knobs_ p' = recorded_knobs_ p /\
  recorders_ p' = recorders_ p /\ values_ p' = values_ p /\
  clock_reads p' = clock_reads p /\
  devices_opened p = [3] /\ devices_opened p' = devices_opened p ++ [5].
Proof.
  intros p p'.
  assert (add_metric bench_device_available (pinned_to 5) "volt" p
          = Raise OutOfRange p') as H by (vm_compute; reflexivity).
  split; [exact H|]. split; [vm_compute; reflexivity|].
  destruct (failed_activation_changes_nothing bench_device_available (pinned_to 5)
              "volt" p OutOfRange p') as (Hk & Hr & Hrec & Hv & Hc & _ & Hd);
    [auto|exact H|].
  split; [exact Hk|]. split; [exact Hr|]. split; [exact Hrec|]. split; [exact Hv|].
  split; [exact Hc|]. split; [vm_compute; reflexivity|]. exact (Hd eq_refl).
Defined.

(** "volt" activated on CPU 3 when only "freq" was declared. *)
Lemma add_metric_undeclared_knob_witness :
  let p := bench_state true [GetMetricProperties "freq"] in
  at_ "volt" (knobs_ p) = None /\
  add_metric bench_device_available (pinned_to 3) "volt" p =
    Raise OutOfRange (set_devices_opened (fun l => l ++ [3]) p).
Proof.
  intros p.
  assert (at_ "volt" (knobs_ p) = None) as Hat by (vm_compute; reflexivity).
  split; [exact Hat|].
  apply (add_metric_undeclared_knob bench_device_available (pinned_to 3) "volt" p);
    [vm_compute; reflexivity|simpl; lia|reflexivity|exact Hat].
Defined.

(** The empty name, which the catalogue of the bench does not know. *)
Lemma unknown_metric_never_activated_witness :
  bench_lookup "" = None /\
  get_metric_properties bench_lookup "" plugin_init = Raise UnknownMetric plugin_init /\
  forall caller,
    (forall h p', add_metric bench_device_available caller "" plugin_init ≠ Ok h p') /\
    add_metric bench_device_available caller "" plugin_init ≠ Terminate.
Proof.
  split; [reflexivity|].
  apply (unknown_metric_never_activated bench_lookup bench_device_available (always true)
           bench_clock bench_read "" plugin_init); [apply rtc_refl|reflexivity].
Defined.

(** Handle 0 is harvested while the recorder of CPU 3 is running. *)
Lemma harvest_frame_witness :
  let p := bench_state true
             [GetMetricProperties "freq"; AddMetric (pinned_to 3) "freq";
              ThreadStep 3; ThreadStep 3] in
  let p' := after (get_all_values 0 [] p) in
  get_all_values 0 [] p = Ok [(0, 100)] p' /\
  vector_index (recorded_knobs_ p) 0 = Some {| item := freq; cpu := 3 |} /\
  knobs_ p' = knobs_ p /\ recorded_knobs_ p' = recorded_knobs_ p /\
  devices_opened p' = devices_opened p /\ clock_reads p' = clock_reads p /\
  (forall c, c ≠ 3 -> recorders_ p' !! c = recorders_ p !! c) /\
  (forall c ci, timeline_of p' c ci = timeline_of p c ci).
Proof.
  intros p p'.
  assert (get_all_values 0 [] p = Ok [(0, 100)] p') as H by (vm_compute; reflexivity).
  assert (vector_index (recorded_knobs_ p) 0 = Some {| item := freq; cpu := 3 |}) as Ho
    by (vm_compute; reflexivity).
  split; [exact H|]. split; [exact Ho|].
  exact (harvest_frame 0 [] [(0, 100)] p p' {| item := freq; cpu := 3 |} H Ho).
Defined.

Lemma harvest_twice_same_state_witness :
  let p := bench_state true
             [GetMetricProperties "freq"; AddMetric (pinned_to 3) "freq";
              ThreadStep 3; ThreadStep 3] in
  let p1 := after (get_all_values 0 [] p) in
  get_all_values 0 [] p = Ok [(0, 100)] p1 /\
  exists timeline,
    [(0, 100)] = [] ++ timeline /\
    forall sink', get_all_values 0 sink' p1 = Ok (sink' ++ timeline) p1.
Proof.
  intros p p1.
  assert (get_all_values 0 [] p = Ok [(0, 100)] p1) as H by (vm_compute; reflexivity).
  split; [exact H|].
  apply (harvest_twice_same_state bench_lookup bench_device_available (always true)
           bench_clock bench_read p 0 [] [(0, 100)] p1); [|exact H].
  apply bench_state_reachable. eexists. vm_compute. reflexivity.
Defined.

(** After the harvest the stopped thread is stepped once more. *)
Lemma harvest_freezes_cpu_witness :
  let p := bench_state true
             [GetMetricProperties "freq"; AddMetric (pinned_to 3) "freq";
              ThreadStep 3; ThreadStep 3] in
  let p1 := after (get_all_values 0 [] p) in
  get_all_values 0 [] p = Ok [(0, 100)] p1 /\
  no_activation_on 3 [ThreadStep 3] /\
  run bench_lookup bench_device_available (always true) bench_clock bench_read
      [ThreadStep 3] p1 = ([Stepped], Alive p1) /\
  stopped_at 3 p1 /\
  forall ci, timeline_of p1 3 ci = timeline_of p 3 ci.
Proof.
  intros p p1.
  assert (get_all_values 0 [] p = Ok [(0, 100)] p1) as H by (vm_compute; reflexivity).
  assert (vector_index (recorded_knobs_ p) 0 = Some {| item := freq; cpu := 3 |}) as Ho
    by (vm_compute; reflexivity).
  assert (no_activation_on 3 [ThreadStep 3]) as Hno.
  { intros caller k Hin. apply list_elem_of_singleton in Hin. discriminate Hin. }
  assert (run bench_lookup bench_device_available (always true) bench_clock bench_read
            [ThreadStep 3] p1 = ([Stepped], Alive p1)) as Hrun by (vm_compute; reflexivity).
  split; [exact H|]. split; [exact Hno|]. split; [exact Hrun|].
  apply (harvest_freezes_cpu bench_lookup bench_device_available (always true)
           bench_clock bench_read p 0 [] [(0, 100)] p1 {| item := freq; cpu := 3 |}
           [ThreadStep 3] [Stepped] p1); [|exact H|exact Ho|exact Hno|exact Hrun].
  apply bench_state_reachable. eexists. vm_compute. reflexivity.
Defined.

(** After the harvest "freq" is activated on CPU 3 again. *)
Lemma harvest_then_activate_restarts_witness :
  let p := bench_state true
             [GetMetricProperties "freq"; AddMetric (pinned_to 3) "freq";
              ThreadStep 3; ThreadStep 3] in
  let p1 := after (get_all_values 0 [] p) in
  get_all_values 0 [] p = Ok [(0, 100)] p1 /\
  exists p2 r t,
    add_metric bench_device_available (pinned_to 3) "freq" p1
      = Ok (static_cast_int (Z.of_nat (length (recorded_knobs_ p)))) p2 /\
    recorders_ p2 !! 3 = Some r /\ running_ r = true /\ looping r = true /\
    thread_ r = Some t /\ th_pc t = LoopEntry /\ th_cpumask t = {[ 3%nat ]}.
Proof.
  intros p p1.
  assert (get_all_values 0 [] p = Ok [(0, 100)] p1) as H by (vm_compute; reflexivity).
  split; [exact H|].
  apply (harvest_then_activate_restarts bench_lookup bench_device_available (always true)
           bench_clock bench_read p 0 [] [(0, 100)] p1 {| item := freq; cpu := 3 |}
           (pinned_to 3) "freq"); [|exact H|..].
  - apply bench_state_reachable. eexists. vm_compute. reflexivity.
  - vm_compute. reflexivity.
  - vm_compute. reflexivity.
  - reflexivity.
  - reflexivity.
  - exists freq. vm_compute. reflexivity.
Defined.

(** "volt" is declared before "freq". *)
Lemma metric_table_sorted_witness :
  let p := bench_state true [GetMetricProperties "volt"; GetMetricProperties "freq"] in
  knobs_ p = [("freq", freq); ("volt", volt)] /\
  StronglySorted knob_lt (knobs_ p) /\ NoDup (knobs_ p).*1 /\
  forall k ci, (k, ci) ∈ knobs_ p ->
    at_ k (knobs_ p) = Some ci /\ bench_lookup k = Some ci.
Proof.
  intros p. split; [vm_compute; reflexivity|].
  apply (metric_table_sorted bench_lookup bench_device_available (always true)
           bench_clock bench_read p).
  apply bench_state_reachable. eexists. vm_compute. reflexivity.
Defined.

(** The sample of "freq" on CPU 3 after one iteration. *)
Lemma samples_only_of_declared_items_witness :
  let p := bench_state true
             [GetMetricProperties "freq"; AddMetric (pinned_to 3) "freq";
              ThreadStep 3; ThreadStep 3] in
  timeline_of p 3 freq ≠ [] /\
  exists k, (k, freq) ∈ knobs_ p /\ at_ k (knobs_ p) = Some freq /\
            bench_lookup k = Some freq.
Proof.
  intros p.
  assert (timeline_of p 3 freq ≠ []) as Hne.
  { assert (timeline_of p 3 freq = [(0, 100)]) as -> by (vm_compute; reflexivity).
    discriminate. }
  split; [exact Hne|].
  apply (samples_only_of_declared_items bench_lookup bench_device_available (always true)
           bench_clock bench_read p 3 freq); [|exact Hne].
  apply bench_state_reachable. eexists. vm_compute. reflexivity.
Defined.

Lemma samples_only_where_activated_witness :
  let p := bench_state true
             [GetMetricProperties "freq"; AddMetric (pinned_to 3) "freq";
              ThreadStep 3; ThreadStep 3] in
  (is_Some (recorders_ p !! 3) <-> (0 < handles_on 3 p)%nat) /\
  (forall ci, timeline_of p 3 ci ≠ [] -> (0 < handles_on 3 p)%nat).
Proof.
  intros p.
  apply (samples_only_where_activated bench_lookup bench_device_available (always true)
           bench_clock bench_read p 3).
  apply bench_state_reachable. eexists. vm_compute. reflexivity.
Defined.

(** Three iterations of the loop of CPU 3 with two declared metrics. *)
Lemma timelines_sorted_by_time_witness :
  let p := bench_state true
             [GetMetricProperties "freq"; GetMetricProperties "volt";
              AddMetric (pinned_to 3) "freq";
              ThreadStep 3; ThreadStep 3; ThreadStep 3; ThreadStep 3] in
  clock_monotone bench_clock /\
  timeline_of p 3 volt = [(1, 101); (3, 103); (5, 105)] /\
  (forall c ci, StronglySorted Z.le (timeline_of p c ci).*1) /\
  (forall id entries p',
      get_all_values id [] p = Ok entries p' -> StronglySorted Z.le entries.*1).
Proof.
  intros p.
  assert (clock_monotone bench_clock) as Hmono.
  { intros m n Hle. unfold bench_clock. lia. }
  split; [exact Hmono|]. split; [vm_compute; reflexivity|].
  apply (timelines_sorted_by_time bench_lookup bench_device_available (always true)
           bench_clock bench_read p Hmono).
  apply bench_state_reachable. eexists. vm_compute. reflexivity.
Defined.

(** The thread of CPU 3 in its loop. *)
Lemma recorder_threads_have_one_cpu_witness :
  let p := bench_state true
             [GetMetricProperties "freq"; AddMetric (pinned_to 3) "freq";
              ThreadStep 3; ThreadStep 3] in
  exists r t,
    recorders_ p !! 3 = Some r /\ thread_ r = Some t /\
    CPU_COUNT (th_cpumask t) = 1 /\
    (th_bound t = None \/ th_bound t = Some (th_cpumask t)) /\
    (th_pc t = LoopEntry -> th_bound t = None).
Proof.
  intros p. eexists _, _.
  split; [vm_compute; reflexivity|]. split; [reflexivity|].
  eapply (recorder_threads_have_one_cpu bench_lookup bench_device_available (always true)
            bench_clock bench_read p 3).
  - apply bench_state_reachable. eexists. vm_compute. reflexivity.
  - vm_compute. reflexivity.
  - reflexivity.
Defined.

(** From a state with one declared metric, one handle, one opened device
    and one sample: an iteration, a harvest, a second activation on CPU 3
    and two more steps. *)
Lemma nothing_is_ever_removed_witness :
  let p := bench_state true
             [GetMetricProperties "freq"; AddMetric (pinned_to 3) "freq";
              ThreadStep 3; ThreadStep 3] in
  let cs := [ThreadStep 3; GetAllValues 0; AddMetric (pinned_to 3) "freq";
             ThreadStep 3; ThreadStep 3] in
  let rs := [Stepped; Values [(0, 100); (1, 101)]; Handle 1; Stepped; Stepped] in
  let p' := bench_state true
              ([GetMetricProperties "freq"; AddMetric (pinned_to 3) "freq";
                ThreadStep 3; ThreadStep 3] ++ cs) in
  run bench_lookup bench_device_available (always true) bench_clock bench_read cs p
    = (rs, Alive p') /\
  timeline_of p 3 freq = [(0, 100)] /\
  timeline_of p' 3 freq = [(0, 100); (1, 101); (2, 102)] /\
  length (recorded_knobs_ p) = 1%nat /\ length (recorded_knobs_ p') = 2%nat /\
  devices_opened p = [3] /\ devices_opened p' = [3; 3] /\
  (forall c ci, timeline_of p c ci `prefix_of` timeline_of p' c ci) /\
  recorded_knobs_ p `prefix_of` recorded_knobs_ p' /\
  devices_opened p `prefix_of` devices_opened p' /\
  (clock_reads p <= clock_reads p')%nat /\
  (forall k ci, at_ k (knobs_ p) = Some ci -> at_ k (knobs_ p') = Some ci).
Proof.
  intros p cs rs p'.
  assert (run bench_lookup bench_device_available (always true) bench_clock bench_read
            cs p = (rs, Alive p')) as Hrun by (vm_compute; reflexivity).
  split; [exact Hrun|].
  split; [vm_compute; reflexivity|]. split; [vm_compute; reflexivity|].
  split; [vm_compute; reflexivity|]. split; [vm_compute; reflexivity|].
  split; [vm_compute; reflexivity|]. split; [vm_compute; reflexivity|].
  exact (nothing_is_ever_removed bench_lookup bench_device_available (always true)
           bench_clock bench_read cs p rs p' Hrun).
Defined.

(** The sample (0, 100) of "freq" on CPU 3. *)
Lemma samples_come_from_their_cpu_witness :
  let p := bench_state true
             [GetMetricProperties "freq"; AddMetric (pinned_to 3) "freq";
              ThreadStep 3; ThreadStep 3] in
  (0, 100) ∈ timeline_of p 3 freq /\
  exists d k, dev_id d = 3 /\ (0, 100) = (bench_clock k, bench_read d freq k).
Proof.
  intros p.
  assert ((0, 100) ∈ timeline_of p 3 freq) as Hin.
  { assert (timeline_of p 3 freq = [(0, 100)]) as -> by (vm_compute; reflexivity).
    by left. }
  split; [exact Hin|].
  apply (samples_come_from_their_cpu bench_lookup bench_device_available (always true)
           bench_clock bench_read p 3 freq (0, 100)); [|exact Hin].
  apply bench_state_reachable. eexists. vm_compute. reflexivity.
Defined.
